(** * pyravendb.d_commands.raven_commands: request building and response reading

    A shallow embedding of the command classes of
    [pyravendb/d_commands/raven_commands.py].  A command is a Python object
    whose [create_request] mutates [self.url], [self.method], [self.data] and
    [self.headers] and whose [set_response] reads a transport response; both
    may raise.  Mutation is modelled by explicit state passing, exceptions by
    a result type, and the state reached when an exception escapes is kept, as
    it is in Python.  A str is a string with one character per element.  The
    classes embedded are the ones the properties of the second part are
    about. *)

From Stdlib Require Import ZArith List String Ascii Bool Lia Sorted DecimalString.
Import ListNotations.
Local Open Scope string_scope.
Local Open Scope Z_scope.

(** ** Python values *)

(** Modelled from the spec: pyravendb.data.indexes.QueryOperator, the Enum of
    the default operators of a query, AND and OR. *)
Inductive QueryOperator := OR | AND.

(** Modelled from the spec: the attributes of pyravendb.data.indexes.IndexQuery
    that QueryCommand reads (the class itself is declared outside this file):
    query string, page size, default operator, sort hints, sort fields, fetch
    fields and the optional non-stale-results timeout. *)
Record IndexQuery := {
  query : string;
  page_size : Z;
  default_operator : option QueryOperator;
  sort_hints : list string;
  sort_fields : list string;
  fetch : list string;
  wait_for_non_stale_results_timeout : option string
}.

(** The values the commands handle: the JSON-like data of Python (None, bool,
    int, str, list, dict with str keys in insertion order) and the instances of
    the classes the commands are given.  An instance of PatchRequest or
    IndexDefinition is its attribute together with what its [to_json()]
    returns; [VObject] is an instance of any other class: its attributes and
    what each of its argument-less methods returns. *)
#[warnings="-register-all"]
Inductive pyval :=
| VNone
| VBool (b : bool)
| VInt (z : Z)
| VStr (s : string)
| VList (l : list pyval)
| VDict (d : list (string * pyval))
| VIndexQuery (q : IndexQuery)
| VPatchRequest (script : pyval) (to_json : pyval)
| VIndexDefinition (name : pyval) (to_json : pyval)
| VObject (cls : string) (attrs : list (string * pyval)) (methods : list (string * pyval)).

(** ** Exceptions *)

Inductive exn_class :=
| ValueError | KeyError | IndexError | AttributeError | TypeError | NotImplementedError
| ErrorResponseException | FetchConcurrencyException | InvalidOperationException.

(** The outcome of a Python expression or call: a value, or a raised exception
    of a class with its argument. *)
Inductive result (A : Type) :=
| Ok (a : A)
| Raise (c : exn_class) (arg : pyval).
Arguments Ok {A} a.
Arguments Raise {A} c arg.

Definition raises {A} (r : result A) (c : exn_class) : Prop :=
  exists arg, r = Raise c arg.

Definition bindR {A B} (r : result A) (k : A -> result B) : result B :=
  match r with
  | Ok a => k a
  | Raise c arg => Raise c arg
  end.

(** [[f(x) for x in l]], stopping at the first element on which [f] raises. *)
Fixpoint mapR {A B} (f : A -> result B) (l : list A) : result (list B) :=
  match l with
  | [] => Ok []
  | x :: t => bindR (f x) (fun y => bindR (mapR f t) (fun ys => Ok (y :: ys)))
  end.

(** ** Built-in operations of the interpreter *)

Definition dquote : string := String (ascii_of_nat 34) EmptyString.

Definition type_name (v : pyval) : string :=
  match v with
  | VNone => "NoneType"
  | VBool _ => "bool"
  | VInt _ => "int"
  | VStr _ => "str"
  | VList _ => "list"
  | VDict _ => "dict"
  | VIndexQuery _ => "IndexQuery"
  | VPatchRequest _ _ => "PatchRequest"
  | VIndexDefinition _ _ => "IndexDefinition"
  | VObject cls _ _ => cls
  end.

(** [x is None] *)
Definition is_None (v : pyval) : bool :=
  match v with VNone => true | _ => false end.

(** [isinstance(x, str)], [isinstance(x, dict)], [isinstance(x, list)] and the
    tests against the classes of pyravendb.data. *)
Definition isinstance_str (v : pyval) : bool :=
  match v with VStr _ => true | _ => false end.
Definition isinstance_dict (v : pyval) : bool :=
  match v with VDict _ => true | _ => false end.
Definition isinstance_list (v : pyval) : bool :=
  match v with VList _ => true | _ => false end.
Definition isinstance_IndexDefinition (v : pyval) : bool :=
  match v with VIndexDefinition _ _ => true | _ => false end.
Definition isinstance_IndexQuery (v : pyval) : bool :=
  match v with VIndexQuery _ => true | _ => false end.

(** Truth value of an object: None, False, 0 and empty containers are false;
    instances (which define neither [__bool__] nor [__len__]) are true. *)
Definition truthy (v : pyval) : bool :=
  match v with
  | VNone => false
  | VBool b => b
  | VInt z => negb (z =? 0)
  | VStr s => negb (String.eqb s EmptyString)
  | VList l => match l with [] => false | _ => true end
  | VDict d => match d with [] => false | _ => true end
  | _ => true
  end.

Fixpoint assoc {A} (k : string) (d : list (string * A)) : option A :=
  match d with
  | [] => None
  | (k', v) :: t => if String.eqb k k' then Some v else assoc k t
  end.

Definition has_key {A} (k : string) (d : list (string * A)) : bool :=
  match assoc k d with Some _ => true | None => false end.

Definition no_attribute {A} (v : pyval) (attr : string) : result A :=
  Raise AttributeError
    (VStr ("'" ++ type_name v ++ "' object has no attribute '" ++ attr ++ "'")).

(** The data attributes and the argument-less methods of an instance: a
    method is given by the value it returns.  The data values have none of
    the attributes this module reads. *)
Definition attribute_of (v : pyval) (attr : string) : option pyval :=
  match v with
  | VPatchRequest script _ => if String.eqb attr "script" then Some script else None
  | VIndexDefinition name _ => if String.eqb attr "name" then Some name else None
  | VObject _ attrs _ => assoc attr attrs
  | _ => None
  end.

Definition method_of (v : pyval) (meth : string) : option pyval :=
  match v with
  | VPatchRequest _ to_json => if String.eqb meth "to_json" then Some to_json else None
  | VIndexDefinition _ to_json => if String.eqb meth "to_json" then Some to_json else None
  | VObject _ _ methods => assoc meth methods
  | _ => None
  end.

(** [obj.attr] *)
Definition getattr (v : pyval) (attr : string) : result pyval :=
  match attribute_of v attr with
  | Some a => Ok a
  | None => no_attribute v attr
  end.

(** [hasattr(obj, attr)]: true of a data attribute and of a method. *)
Definition hasattr (v : pyval) (attr : string) : bool :=
  match attribute_of v attr, method_of v attr with
  | None, None => false
  | _, _ => true
  end.

(** [obj.meth()]: the attribute lookup comes first (it raises AttributeError
    when there is no such attribute), then the call; an attribute that holds
    plain data is not callable. *)
Definition call_method (v : pyval) (meth : string) : result pyval :=
  match attribute_of v meth with
  | Some a => Raise TypeError (VStr ("'" ++ type_name a ++ "' object is not callable"))
  | None =>
      match method_of v meth with
      | Some r => Ok r
      | None => no_attribute v meth
      end
  end.

(** [len(x)] *)
Definition py_len (v : pyval) : result Z :=
  match v with
  | VStr s => Ok (Z.of_nat (String.length s))
  | VList l => Ok (Z.of_nat (List.length l))
  | VDict d => Ok (Z.of_nat (List.length d))
  | _ => Raise TypeError (VStr ("object of type '" ++ type_name v ++ "' has no len()"))
  end.

Fixpoint chars (s : string) : list pyval :=
  match s with
  | EmptyString => []
  | String c t => VStr (String c EmptyString) :: chars t
  end.

(** [for x in v]: the elements of a list, the characters of a str, the keys of
    a dict. *)
Definition py_iter (v : pyval) : result (list pyval) :=
  match v with
  | VList l => Ok l
  | VStr s => Ok (chars s)
  | VDict d => Ok (map (fun kv => VStr (fst kv)) d)
  | _ => Raise TypeError (VStr ("'" ++ type_name v ++ "' object is not iterable"))
  end.

(** [needle in haystack] for two strs: substring test. *)
Fixpoint prefixb (p s : string) : bool :=
  match p, s with
  | EmptyString, _ => true
  | String a p', String b s' => Ascii.eqb a b && prefixb p' s'
  | String _ _, EmptyString => false
  end.

Fixpoint substringb (p s : string) : bool :=
  prefixb p s ||
  match s with
  | EmptyString => false
  | String _ s' => substringb p s'
  end.

(** [key in container] with a str on the left, as the commands use it: key
    membership in a dict, element membership in a list, substring of a str. *)
Definition contains_str (k : string) (v : pyval) : result bool :=
  match v with
  | VDict d => Ok (has_key k d)
  | VList l => Ok (existsb (fun x => match x with VStr s => String.eqb s k | _ => false end) l)
  | VStr s => Ok (substringb k s)
  | _ => Raise TypeError (VStr ("argument of type '" ++ type_name v ++ "' is not iterable"))
  end.

(** [container[key]] with a str key. *)
Definition getitem_str (v : pyval) (k : string) : result pyval :=
  match v with
  | VDict d =>
      match assoc k d with
      | Some x => Ok x
      | None => Raise KeyError (VStr k)
      end
  | VList _ => Raise TypeError (VStr "list indices must be integers or slices, not str")
  | VStr _ => Raise TypeError (VStr "string indices must be integers")
  | _ => Raise TypeError (VStr ("'" ++ type_name v ++ "' object is not subscriptable"))
  end.

(** [str + x]: concatenation is defined on two strs only. *)
Definition str_add (s : string) (v : pyval) : result string :=
  match v with
  | VStr t => Ok (s ++ t)
  | _ => Raise TypeError
           (VStr ("can only concatenate str (not " ++ dquote ++ type_name v ++ dquote ++ ") to str"))
  end.

(** [str(z)] for an int. *)
Definition str_of_int (z : Z) : string := NilZero.string_of_int (Z.to_int z).

(** ** What the module imports

    [Utils.quote_key], the values of the [QueryOperator] members and the
    exception classes of pyravendb.custom_exceptions are declared in other
    files of the package; the interpreter's [repr] of containers and instances
    is outside the package altogether.  They are taken as parameters. *)
Record External := {
  (** [Utils.quote_key(key)] and [Utils.quote_key(key, True)]: the flag tells
      whether the call passes True as second argument. *)
  quote_key : pyval -> bool -> result string;
  (** [member.value] of a QueryOperator member *)
  QueryOperator_value : QueryOperator -> pyval;
  (** whether a class of pyravendb.custom_exceptions derives from ValueError *)
  derives_ValueError : exn_class -> bool;
  (** [str(x)] of a container or of an instance *)
  repr : pyval -> string
}.

Section Interpreter.
Context (ext : External).

(** [str(x)], which [str.format] applies to the argument of a plain
    replacement field. *)
Definition py_str (v : pyval) : string :=
  match v with
  | VNone => "None"
  | VBool true => "True"
  | VBool false => "False"
  | VInt z => str_of_int z
  | VStr s => s
  | _ => repr ext v
  end.

(** [except ValueError]: does the clause catch an exception of class [c]? *)
Definition caught_by_ValueError (c : exn_class) : bool :=
  match c with
  | ValueError => true
  | KeyError | IndexError | AttributeError | TypeError | NotImplementedError => false
  | ErrorResponseException | FetchConcurrencyException | InvalidOperationException =>
      derives_ValueError ext c
  end.

(** [try: body  except ValueError: handler] *)
Definition try_except_ValueError {A} (body handler : result A) : result A :=
  match body with
  | Ok a => Ok a
  | Raise c arg => if caught_by_ValueError c then handler else Raise c arg
  end.

(** *** [str.format]

    The format strings of this module hold literal text and replacement
    fields [{N}] (positional) and [{name}] (keyword) only: no doubled brace,
    no conversion, no format spec.  A field is looked up first, then
    converted with [str]. *)
Definition digit_value (c : ascii) : option nat :=
  match c with
  | "0"%char => Some 0%nat | "1"%char => Some 1%nat | "2"%char => Some 2%nat
  | "3"%char => Some 3%nat | "4"%char => Some 4%nat | "5"%char => Some 5%nat
  | "6"%char => Some 6%nat | "7"%char => Some 7%nat | "8"%char => Some 8%nat
  | "9"%char => Some 9%nat
  | _ => None
  end.

Fixpoint digits_value (s : string) (acc : nat) : option nat :=
  match s with
  | EmptyString => Some acc
  | String c t =>
      match digit_value c with
      | Some n => digits_value t (10 * acc + n)%nat
      | None => None
      end
  end.

Definition format_field (name : string) (args : list pyval)
           (kwargs : list (string * pyval)) : result pyval :=
  match name, digits_value name 0 with
  | String _ _, Some n =>
      match nth_error args n with
      | Some v => Ok v
      | None => Raise IndexError
                  (VStr ("Replacement index " ++ name
                         ++ " out of range for positional args tuple"))
      end
  | _, _ =>
      match assoc name kwargs with
      | Some v => Ok v
      | None => Raise KeyError (VStr name)
      end
  end.

(** [field] is [None] outside a replacement field and [Some name] inside
    one, [name] being the part read so far.  The fields are resolved from
    left to right, so the first failing one raises. *)
Fixpoint format_scan (fmt : string) (field : option string) (args : list pyval)
         (kwargs : list (string * pyval)) : result string :=
  match fmt, field with
  | EmptyString, None => Ok EmptyString
  | EmptyString, Some _ => Raise ValueError (VStr "expected '}' before end of string")
  | String c t, None =>
      if Ascii.eqb c "{"%char then format_scan t (Some EmptyString) args kwargs
      else if Ascii.eqb c "}"%char
           then Raise ValueError (VStr "Single '}' encountered in format string")
           else bindR (format_scan t None args kwargs) (fun rest => Ok (String c rest))
  | String c t, Some name =>
      if Ascii.eqb c "}"%char
      then bindR (format_field name args kwargs) (fun v =>
           bindR (format_scan t None args kwargs) (fun rest => Ok (py_str v ++ rest)))
      else format_scan t (Some (name ++ String c EmptyString)) args kwargs
  end.

(** [fmt.format(args..., kwargs...)] *)
Definition str_format (fmt : string) (args : list pyval)
           (kwargs : list (string * pyval)) : result string :=
  format_scan fmt None args kwargs.

End Interpreter.

(** [try: body  except ValueError as e: handler(e)] *)
Definition try_except_ValueError_as {A} (ext : External) (body : result A)
           (handler : exn_class -> pyval -> result A) : result A :=
  match body with
  | Ok a => Ok a
  | Raise c arg => if caught_by_ValueError ext c then handler c arg else Raise c arg
  end.

(** [isinstance(x, PatchRequest)] *)
Definition isinstance_PatchRequest (v : pyval) : bool :=
  match v with VPatchRequest _ _ => true | _ => false end.

(** [s.replace(old, new)] for a non-empty [old]: every occurrence of [old],
    found from left to right without overlap, gives way to [new].  [skip]
    counts the characters of an occurrence still to be passed over. *)
Fixpoint replace_from (old new s : string) (skip : nat) : string :=
  match s with
  | EmptyString => EmptyString
  | String c t =>
      match skip with
      | S k => replace_from old new t k
      | O =>
          if prefixb old s
          then new ++ replace_from old new t (String.length old - 1)
          else String c (replace_from old new t 0)
      end
  end.

Definition str_replace (s old new : string) : string := replace_from old new s 0.

(** [x.replace(old, new)]: a method of str; the other values have no such
    attribute. *)
Definition py_replace (v : pyval) (old new : string) : result string :=
  match v with
  | VStr s => Ok (str_replace s old new)
  | _ => no_attribute v "replace"
  end.

(** The other two helpers of pyravendb.tools.utils that the commands call,
    parameters like [Utils.quote_key]: [Utils.build_path(index_name, query,
    options)] and [Utils.name_validation(name)], which returns nothing and
    raises on a name it refuses. *)
Record Utils := {
  build_path : pyval -> pyval -> pyval -> result string;
  name_validation : string -> result unit
}.

(** [f(args)]: none of the values of the model is callable. *)
Definition call (f : pyval) (args : list pyval) : result pyval :=
  Raise TypeError (VStr ("'" ++ type_name f ++ "' object is not callable")).

(** [collections.OrderedDict.fromkeys(keys)], as the list of its keys: a key
    not seen yet goes to the end, a key seen before keeps its first place, an
    unhashable key (a list or a dict) raises.  Instances are hashed by identity,
    which the model does not track: two instances count as different keys. *)
Definition hashable (v : pyval) : bool :=
  match v with VList _ | VDict _ => false | _ => true end.

Definition key_eqb (a b : pyval) : bool :=
  match a, b with
  | VNone, VNone => true
  | VStr s, VStr t => String.eqb s t
  | VInt x, VInt y => x =? y
  | VBool x, VBool y => Bool.eqb x y
  | VBool x, VInt y | VInt y, VBool x => (if x then 1 else 0) =? y
  | _, _ => false
  end.

Definition OrderedDict_insert (d : list pyval) (k : pyval) : result (list pyval) :=
  if hashable k
  then Ok (if existsb (key_eqb k) d then d else (d ++ [k])%list)
  else Raise TypeError (VStr ("unhashable type: '" ++ type_name k ++ "'")).

Definition OrderedDict_fromkeys (keys : list pyval) : result (list pyval) :=
  fold_left (fun acc k => bindR acc (fun d => OrderedDict_insert d k)) keys (Ok []).

(** [sum(...)] of ints *)
Definition sum (l : list Z) : Z := fold_left Z.add l 0.

(** [log = logging.basicConfig(filename='responses.log', level=logging.DEBUG)]
    at the top of the module: [logging.basicConfig] configures the root logger
    and returns None, which is what [log] is bound to. *)
Definition logging_basicConfig : pyval := VNone.
Definition log : pyval := logging_basicConfig.

(** ** Objects under mutation

    A method body is a function from the object before to an outcome and the
    object after; the object after is also there when the outcome is an
    exception. *)
Definition M (S A : Type) : Type := S -> result A * S.

Definition ret {S A} (a : A) : M S A := fun s => (Ok a, s).
Definition raise {S A} (c : exn_class) (arg : pyval) : M S A := fun s => (Raise c arg, s).
Definition lift {S A} (r : result A) : M S A := fun s => (r, s).
Definition get {S} : M S S := fun s => (Ok s, s).
Definition modify {S} (f : S -> S) : M S unit := fun s => (Ok tt, f s).
Definition bind {S A B} (m : M S A) (k : A -> M S B) : M S B :=
  fun s =>
    match m s with
    | (Ok a, s') => k a s'
    | (Raise c arg, s') => (Raise c arg, s')
    end.
(** [if cond: body] *)
Definition when {S} (cond : bool) (body : M S unit) : M S unit :=
  if cond then body else ret tt.

Declare Scope py_scope.
Delimit Scope py_scope with py.
Notation "x <- m ;; k" := (bind m (fun x => k))
  (at level 61, m at next level, right associativity) : py_scope.
Notation "m ;; k" := (bind m (fun _ => k))
  (at level 61, right associativity) : py_scope.
Local Open Scope py_scope.

(** ** ServerNode and Response, supplied by the transport *)

Module ServerNode.
Record t := { url : string; database : string }.
End ServerNode.

Module Response.
(** A [requests] response: the status code and the body as JSON, [None] when
    the body is not JSON. *)
Record t := { status_code : Z; body : option pyval }.

(** [response.json()] raises a ValueError on a body that is not JSON. *)
Definition json (r : t) : result pyval :=
  match body r with
  | Some j => Ok j
  | None => Raise ValueError (VStr "Expecting value: line 1 column 1 (char 0)")
  end.

(** Truth value of a response object: [requests] defines it as [ok], false
    for the status codes from 400 to 599. *)
Definition ok (r : t) : bool :=
  negb ((400 <=? status_code r) && (status_code r <? 600)).
End Response.

(** What [set_response] is given: None or a response.  Reading an attribute
    of None raises. *)
Definition response_status_code (response : option Response.t) : result Z :=
  match response with
  | Some r => Ok (Response.status_code r)
  | None => no_attribute VNone "status_code"
  end.

Definition response_json (response : option Response.t) : result pyval :=
  match response with
  | Some r => Response.json r
  | None => no_attribute VNone "json"
  end.

Definition response_truthy (response : option Response.t) : bool :=
  match response with
  | Some r => Response.ok r
  | None => false
  end.

(** ** class RavenCommand *)

(** The attributes every command has, and in [own] the ones its class adds. *)
Record RavenCommand (F : Type) := {
  url : pyval;
  method : pyval;
  data : pyval;
  headers : pyval;
  is_read_request : bool;
  failed_nodes : list pyval;
  authentication_retries : Z;
  avoid_failover : bool;
  own : F
}.
Arguments url {F} _.
Arguments method {F} _.
Arguments data {F} _.
Arguments headers {F} _.
Arguments is_read_request {F} _.
Arguments failed_nodes {F} _.
Arguments authentication_retries {F} _.
Arguments avoid_failover {F} _.
Arguments own {F} _.

(** [RavenCommand.__init__(self, url=None, method=None, data=None,
    headers=None, is_read_request=False)], called by every subclass with
    [method] and at most [is_read_request]. *)
Definition RavenCommand_init {F} (method : pyval) (is_read_request : bool) (own : F)
  : RavenCommand F :=
  {| url := VNone; method := method; data := VNone; headers := VDict [];
     is_read_request := is_read_request; failed_nodes := [];
     authentication_retries := 0; avoid_failover := false; own := own |}.

Section Assign.
Context {F : Type}.

(** [self.url = v], [self.method = v], [self.data = v], [self.headers = v] *)
Definition set_url (v : pyval) : M (RavenCommand F) unit :=
  modify (fun c =>
    {| url := v; method := method c; data := data c; headers := headers c;
       is_read_request := is_read_request c; failed_nodes := failed_nodes c;
       authentication_retries := authentication_retries c;
       avoid_failover := avoid_failover c; own := own c |}).
Definition set_method (v : pyval) : M (RavenCommand F) unit :=
  modify (fun c =>
    {| url := url c; method := v; data := data c; headers := headers c;
       is_read_request := is_read_request c; failed_nodes := failed_nodes c;
       authentication_retries := authentication_retries c;
       avoid_failover := avoid_failover c; own := own c |}).
Definition set_data (v : pyval) : M (RavenCommand F) unit :=
  modify (fun c =>
    {| url := url c; method := method c; data := v; headers := headers c;
       is_read_request := is_read_request c; failed_nodes := failed_nodes c;
       authentication_retries := authentication_retries c;
       avoid_failover := avoid_failover c; own := own c |}).
Definition set_headers (v : pyval) : M (RavenCommand F) unit :=
  modify (fun c =>
    {| url := url c; method := method c; data := data c; headers := v;
       is_read_request := is_read_request c; failed_nodes := failed_nodes c;
       authentication_retries := authentication_retries c;
       avoid_failover := avoid_failover c; own := own c |}).
(** an assignment to an attribute of the subclass *)
Definition set_own (f : F) : M (RavenCommand F) unit :=
  modify (fun c =>
    {| url := url c; method := method c; data := data c; headers := headers c;
       is_read_request := is_read_request c; failed_nodes := failed_nodes c;
       authentication_retries := authentication_retries c;
       avoid_failover := avoid_failover c; own := f |}).

(** The abstract methods of the base class. *)
Definition RavenCommand_create_request (server_node : ServerNode.t)
  : M (RavenCommand F) unit :=
  raise NotImplementedError VNone.
Definition RavenCommand_set_response (self : RavenCommand F)
           (response : option Response.t) : result pyval :=
  Raise NotImplementedError VNone.
End Assign.

(** [self.url = "{0}/databases/{1}/{2}".format(server_node.url,
    server_node.database, path)], the last statement of most commands. *)
Definition set_database_url {F} (ext : External) (server_node : ServerNode.t) (path : string)
  : M (RavenCommand F) unit :=
  u <- lift (str_format ext "{0}/databases/{1}/{2}"
               [VStr (ServerNode.url server_node);
                VStr (ServerNode.database server_node); VStr path] []) ;;
  set_url (VStr u).

(** ** class GetDocumentCommand *)
Module GetDocumentCommand.
Record fields := {
  key_or_keys : pyval;
  includes : pyval;
  metadata_only : bool;
  force_read_from_master : bool
}.
Definition t := RavenCommand fields.

Definition init (key_or_keys includes : pyval) (metadata_only force_read_from_master : bool) : t :=
  RavenCommand_init (VStr "GET") true
    {| key_or_keys := key_or_keys; includes := includes;
       metadata_only := metadata_only; force_read_from_master := force_read_from_master |}.

Section Methods.
Context (ext : External).

(** [join(prefix + Utils.quote_key(item) for item in items)] on the empty
    separator *)
Definition join_quoted (prefix : string) (items : list pyval) : result string :=
  bindR (mapR (fun item => bindR (quote_key ext item false)
                                 (fun q => Ok (prefix ++ q))) items)
        (fun parts => Ok (String.concat EmptyString parts)).

Definition create_request (server_node : ServerNode.t) : M t unit :=
  self <- get ;;
  when (is_None (key_or_keys (own self)))
       (raise ValueError (VStr "None Key is not valid")) ;;
  let path := "docs?" in
  path <- (if truthy (includes (own self))
           then items <- lift (py_iter (includes (own self))) ;;
                inc <- lift (join_quoted "&include=" items) ;;
                ret (path ++ inc)
           else ret path) ;;
  path <- match key_or_keys (own self) with
          | VList keys =>
              key_or_keys <- lift (OrderedDict_fromkeys keys) ;;
              let path := if metadata_only (own self)
                          then path ++ "&metadata-only=True" else path in
              lens <- lift (mapR py_len key_or_keys) ;;
              if sum lens >? 1024
              then set_method (VStr "POST") ;;
                   set_data (VList key_or_keys) ;;
                   ret path
              else ids <- lift (join_quoted "&id=" key_or_keys) ;;
                   ret (path ++ ids)
          | key =>
              q <- lift (quote_key ext key false) ;;
              id <- lift (str_format ext "&id={0}" [VStr q] []) ;;
              ret (path ++ id)
          end ;;
  set_database_url ext server_node path.

Definition set_response (self : t) (response : option Response.t) : result pyval :=
  match response with
  | None => Ok VNone
  | Some r =>
      try_except_ValueError ext
        (bindR (Response.json r) (fun response =>
         bindR (contains_str "Error" response) (fun has_error =>
         if has_error
         then bindR (getitem_str response "Error") (fun e =>
              Raise ErrorResponseException e)
         else Ok response)))
        (Raise ErrorResponseException
           (VStr "Failed to load document from the database please check the connection to the server"))
  end.
End Methods.
End GetDocumentCommand.

(** ** class DeleteDocumentCommand *)
Module DeleteDocumentCommand.
Record fields := { key : pyval; etag : pyval }.
Definition t := RavenCommand fields.

Definition init (key etag : pyval) : t :=
  RavenCommand_init (VStr "DELETE") false {| key := key; etag := etag |}.

Section Methods.
Context (ext : External).

Definition create_request (server_node : ServerNode.t) : M t unit :=
  self <- get ;;
  when (is_None (key (own self))) (raise ValueError (VStr "None Key is not valid")) ;;
  when (negb (isinstance_str (key (own self))))
       (raise ValueError (VStr "key must be <class 'str'>")) ;;
  when (negb (is_None (etag (own self))))
       (if_match <- lift (str_format ext (dquote ++ "{0}" ++ dquote) [etag (own self)] []) ;;
        set_headers (VDict [("If-Match", VStr if_match)])) ;;
  q <- lift (quote_key ext (key (own self)) false) ;;
  u <- lift (str_format ext "{0}/databases/{1}/docs?id={2}"
               [VStr (ServerNode.url server_node);
                VStr (ServerNode.database server_node); VStr q] []) ;;
  set_url (VStr u).

Definition set_response (self : t) (response : option Response.t) : result pyval :=
  match response with
  | None =>
      bindR (getattr log "info") (fun info =>
      bindR (str_format ext "Couldn't find The Document {0}" [key (own self)] []) (fun msg =>
      bindR (call info [VStr msg]) (fun _ =>
      Ok VNone)))
  | Some r =>
      if negb (Response.status_code r =? 204)
      then bindR (Response.json r) (fun response =>
           bindR (getitem_str response "Error") (fun e =>
           Raise ErrorResponseException e))
      else Ok VNone
  end.
End Methods.
End DeleteDocumentCommand.

(** ** class PutDocumentCommand *)
Module PutDocumentCommand.
Record fields := { key : pyval; document : pyval; etag : pyval }.
Definition t := RavenCommand fields.

Definition init (key document etag : pyval) : t :=
  RavenCommand_init (VStr "PUT") false
    {| key := key; document := document; etag := etag |}.

Section Methods.
Context (ext : External).

Definition create_request (server_node : ServerNode.t) : M t unit :=
  self <- get ;;
  when (is_None (document (own self)))
       (set_own {| key := key (own self); document := VDict [];
                   etag := etag (own self) |}) ;;
  self <- get ;;
  when (negb (is_None (etag (own self))))
       (if_match <- lift (str_format ext (dquote ++ "{etag}" ++ dquote)
                            [etag (own self)] []) ;;
        set_headers (VDict [("If-Match", VStr if_match)])) ;;
  when (negb (isinstance_str (key (own self))))
       (raise ValueError (VStr "key must be <class 'str'>")) ;;
  when (negb (isinstance_dict (document (own self))))
       (raise ValueError (VStr "document and metadata must be dict")) ;;
  set_data (document (own self)) ;;
  u <- lift (str_format ext "{0}/databases/{1}/docs?id={2}"
               [VStr (ServerNode.url server_node);
                VStr (ServerNode.database server_node); key (own self)] []) ;;
  set_url (VStr u).

Definition set_response (self : t) (response : option Response.t) : result pyval :=
  try_except_ValueError ext
    (bindR (response_json response) (fun response =>
     bindR (contains_str "Error" response) (fun has_error =>
     if has_error
     then bindR (contains_str "ActualEtag" response) (fun has_etag =>
          if has_etag
          then bindR (getitem_str response "Error") (fun e =>
               Raise FetchConcurrencyException e)
          else bindR (getitem_str response "Error") (fun e =>
               Raise ErrorResponseException e))
     else Ok response)))
    (Raise ErrorResponseException
       (VStr "Failed to put document in the database please check the connection to the server")).
End Methods.
End PutDocumentCommand.

(** ** class BatchCommand *)
Module BatchCommand.
Record fields := { commands_array : list pyval }.
Definition t := RavenCommand fields.

Definition init (commands_array : list pyval) : t :=
  RavenCommand_init (VStr "POST") false {| commands_array := commands_array |}.

Section Methods.
Context (ext : External).

(** The body of the loop: what one sub-command adds to the local list. *)
Definition serialize (command : pyval) : result pyval :=
  if negb (hasattr command "command")
  then Raise ValueError (VStr "Not a valid command")
  else call_method command "to_json".

Definition create_request (server_node : ServerNode.t) : M t unit :=
  self <- get ;;
  data <- lift (mapR serialize (commands_array (own self))) ;;
  u <- lift (str_format ext "{0}/databases/{1}/bulk_docs"
               [VStr (ServerNode.url server_node);
                VStr (ServerNode.database server_node)] []) ;;
  set_url (VStr u) ;;
  set_data (VList data).

(** [InvalidOperationException(e)] wraps the ValueError it caught; it is
    shown with the argument of [e]. *)
Definition set_response (self : t) (response : option Response.t) : result pyval :=
  try_except_ValueError_as ext
    (bindR (response_json response) (fun response =>
     bindR (contains_str "Error" response) (fun has_error =>
     if has_error
     then bindR (getitem_str response "Error") (fun e => Raise ValueError e)
     else getitem_str response "Results")))
    (fun _ e => Raise InvalidOperationException e).
End Methods.
End BatchCommand.

(** ** class PutIndexesCommand *)
Module PutIndexesCommand.
Record fields := { indexes_to_add : list pyval }.
Definition t := RavenCommand fields.

(** The body of the constructor's loop: the checks on one argument and the
    JSON appended to [self.indexes_to_add]. *)
Definition checked_json (index_definition : pyval) : result pyval :=
  if negb (isinstance_IndexDefinition index_definition)
  then Raise ValueError (VStr "index_definition in indexes_to_add must be IndexDefinition type")
  else bindR (getattr index_definition "name") (fun name =>
       if is_None name
       then Raise ValueError (VStr "None Index name is not valid")
       else call_method index_definition "to_json").

(** [PutIndexesCommand(d1, ..., dn)]: the arguments arrive as a tuple,
    which is never None.  A constructor that raises gives no object. *)
Definition init (indexes_to_add : list pyval) : result t :=
  bindR (mapR checked_json indexes_to_add) (fun jsons =>
  Ok (RavenCommand_init (VStr "PUT") false {| indexes_to_add := jsons |})).

Section Methods.
Context (ext : External).

Definition create_request (server_node : ServerNode.t) : M t unit :=
  self <- get ;;
  u <- lift (str_format ext "{0}/databases/{1}/indexes"
               [VStr (ServerNode.url server_node);
                VStr (ServerNode.database server_node)] []) ;;
  set_url (VStr u) ;;
  set_data (VList (indexes_to_add (own self))).
End Methods.
End PutIndexesCommand.

(** ** class GetIndexCommand *)
Module GetIndexCommand.
Record fields := { index_name : pyval; force_read_from_master : bool }.
Definition t := RavenCommand fields.

Definition init (index_name : pyval) (force_read_from_master : bool) : t :=
  RavenCommand_init (VStr "GET") true
    {| index_name := index_name; force_read_from_master := force_read_from_master |}.

Definition set_response (self : t) (response : option Response.t) : result pyval :=
  match response with
  | None => Ok VNone
  | Some r => bindR (Response.json r) (fun j => getitem_str j "Results")
  end.

Section Methods.
Context (ext : External).

(** The third argument of the format is a conditional expression:
    [Utils.quote_key] is called only when [self.index_name] is true. *)
Definition create_request (server_node : ServerNode.t) : M t unit :=
  self <- get ;;
  name <- (if truthy (index_name (own self))
           then q <- lift (quote_key ext (index_name (own self)) true) ;;
                lift (str_format ext "name={0}" [VStr q] [])
           else ret EmptyString) ;;
  u <- lift (str_format ext "{0}/databases/{1}/indexes?{2}"
               [VStr (ServerNode.url server_node);
                VStr (ServerNode.database server_node); VStr name] []) ;;
  set_url (VStr u).
End Methods.
End GetIndexCommand.

(** ** class PatchCommand *)
Module PatchCommand.
Record fields := {
  key : pyval;
  patch : pyval;
  etag : pyval;
  patch_if_missing : pyval;
  skip_patch_if_etag_mismatch : bool;
  return_debug_information : bool
}.
Definition t := RavenCommand fields.

Definition init (key patch etag patch_if_missing : pyval)
           (skip_patch_if_etag_mismatch return_debug_information : bool) : t :=
  RavenCommand_init (VStr "PATCH") false
    {| key := key; patch := patch; etag := etag; patch_if_missing := patch_if_missing;
       skip_patch_if_etag_mismatch := skip_patch_if_etag_mismatch;
       return_debug_information := return_debug_information |}.

Section Methods.
Context (ext : External).

Definition create_request (server_node : ServerNode.t) : M t unit :=
  self <- get ;;
  when (is_None (key (own self))) (raise ValueError (VStr "None key is invalid")) ;;
  when (is_None (patch (own self))) (raise ValueError (VStr "None patch is invalid")) ;;
  when (truthy (patch_if_missing (own self)))
       (script <- lift (getattr (patch_if_missing (own self)) "script") ;;
        when (negb (truthy script))
             (raise ValueError (VStr "None or Empty script is invalid"))) ;;
  q <- lift (quote_key ext (key (own self)) false) ;;
  path <- lift (str_format ext "docs?id={0}" [VStr q] []) ;;
  let path := if skip_patch_if_etag_mismatch (own self)
              then path ++ "&skipPatchIfEtagMismatch=true" else path in
  let path := if return_debug_information (own self)
              then path ++ "&debug=true" else path in
  when (negb (is_None (etag (own self))))
       (if_match <- lift (str_format ext (dquote ++ "{etag}" ++ dquote)
                            [etag (own self)] []) ;;
        set_headers (VDict [("If-Match", VStr if_match)])) ;;
  set_database_url ext server_node path ;;
  patch_json <- lift (call_method (patch (own self)) "to_json") ;;
  patch_if_missing_json <-
    (if truthy (patch_if_missing (own self))
     then lift (call_method (patch_if_missing (own self)) "to_json")
     else ret VNone) ;;
  set_data (VDict [("Patch", patch_json); ("PatchIfMissing", patch_if_missing_json)]).

Definition set_response (self : t) (response : option Response.t) : result pyval :=
  if response_truthy response
  then bindR (response_status_code response) (fun status_code =>
       if status_code =? 200
       then response_json response
       else Ok VNone)
  else Ok VNone.
End Methods.
End PatchCommand.

(** ** class QueryCommand *)
Module QueryCommand.
(** The conventions object, of which the command reads one attribute. *)
Record Conventions := { max_length_of_query_using_get_url : Z }.

Record fields := {
  conventions : option Conventions;
  index_name : pyval;
  index_query : pyval;
  includes : pyval;
  metadata_only : bool;
  index_entries_only : bool;
  force_read_from_master : bool
}.
Definition t := RavenCommand fields.

Definition init (index_name index_query : pyval) (conventions : option Conventions)
           (includes : pyval) (metadata_only index_entries_only force_read_from_master : bool)
  : result t :=
  if is_None index_name then Raise ValueError (VStr "Invalid index_name")
  else if is_None index_query then Raise ValueError (VStr "Invalid index_query")
  else match conventions with
       | None => Raise ValueError (VStr "Invalid convention")
       | Some _ =>
           Ok (RavenCommand_init (VStr "GET") true
                 {| conventions := conventions; index_name := index_name;
                    index_query := index_query; includes := includes;
                    metadata_only := metadata_only;
                    index_entries_only := index_entries_only;
                    force_read_from_master := force_read_from_master |})
       end.

Section Methods.
Context (ext : External).

(** [for x in items: path += fmt.format(x)], as the text added to [path] *)
Definition formatted (fmt : string) (items : list string) : result string :=
  bindR (mapR (fun x => str_format ext fmt [VStr x] []) items)
        (fun parts => Ok (String.concat EmptyString parts)).

(** [self.conventions.max_length_of_query_using_get_url] *)
Definition max_length (conventions : option Conventions) : result Z :=
  match conventions with
  | Some c => Ok (max_length_of_query_using_get_url c)
  | None => no_attribute VNone "max_length_of_query_using_get_url"
  end.

Definition create_request (server_node : ServerNode.t) : M t unit :=
  self <- get ;;
  when (negb (truthy (index_name (own self))))
       (raise ValueError (VStr "index_name cannot be None or empty")) ;;
  when (is_None (index_query (own self)))
       (raise ValueError (VStr "None query is invalid")) ;;
  match index_query (own self) with
  | VIndexQuery index_query =>
      q <- lift (quote_key ext (index_name (own self)) true) ;;
      path <- lift (str_format ext "queries/{0}?&pageSize={1}"
                      [VStr q; VInt (page_size index_query)] []) ;;
      path <- match default_operator index_query with
              | Some AND =>
                  op <- lift (str_format ext "&operator={0}"
                                [QueryOperator_value ext AND] []) ;;
                  ret (path ++ op)
              | _ => ret path
              end ;;
      path <- (if truthy (VStr (query index_query))
               then q <- lift (quote_key ext (VStr (query index_query)) false) ;;
                    s <- lift (str_format ext "&query={0}" [VStr q] []) ;;
                    ret (path ++ s)
               else ret path) ;;
      hints <- lift (formatted "&{0}" (sort_hints index_query)) ;;
      let path := path ++ hints in
      sorts <- lift (formatted "&sort={0}" (sort_fields index_query)) ;;
      let path := path ++ sorts in
      fetches <- lift (formatted "&fetch={0}" (fetch index_query)) ;;
      let path := path ++ fetches in
      let path := if metadata_only (own self)
                  then path ++ "&metadata-only=true" else path in
      let path := if index_entries_only (own self)
                  then path ++ "&debug=entries" else path in
      path <- (if truthy (includes (own self))
               then n <- lift (py_len (includes (own self))) ;;
                    if n >? 0
                    then items <- lift (py_iter (includes (own self))) ;;
                         parts <- lift (mapR (str_add "&include=") items) ;;
                         ret (path ++ String.concat EmptyString parts)
                    else ret path
               else ret path) ;;
      path <- match wait_for_non_stale_results_timeout index_query with
              | Some timeout =>
                  if truthy (VStr timeout)
                  then s <- lift (str_format ext "&waitForNonStaleResultsTimeout={0}"
                                    [VStr timeout] []) ;;
                       ret (path ++ s)
                  else ret path
              | None => ret path
              end ;;
      n <- lift (py_len (VStr (query index_query))) ;;
      threshold <- lift (max_length (conventions (own self))) ;;
      when (n <=? threshold) (set_method (VStr "POST")) ;;
      set_database_url ext server_node path
  | _ => raise ValueError (VStr "query must be IndexQuery type")
  end.

Definition set_response (self : t) (response : option Response.t) : result pyval :=
  match response with
  | None =>
      bindR (str_format ext "Could not find index {0}" [index_name (own self)] [])
            (fun msg => Raise ErrorResponseException (VStr msg))
  | Some r =>
      bindR (Response.json r) (fun response =>
      bindR (contains_str "Error" response) (fun has_error =>
      if has_error
      then bindR (getitem_str response "Error") (fun e =>
           Raise ErrorResponseException e)
      else Ok response))
  end.
End Methods.
End QueryCommand.

(** ** class GetStatisticsCommand *)
Module GetStatisticsCommand.
Definition t := RavenCommand unit.
Definition init : t := RavenCommand_init (VStr "GET") false tt.

Definition set_response (self : t) (response : option Response.t) : result pyval :=
  if response_truthy response
  then bindR (response_status_code response) (fun status_code =>
       if status_code =? 200
       then response_json response
       else Ok VNone)
  else Ok VNone.
End GetStatisticsCommand.

(** ** class GetTopologyCommand *)
Module GetTopologyCommand.
Definition t := RavenCommand unit.

(** [self.avoid_failover = True] after the base constructor *)
Definition init : t :=
  let self : t := RavenCommand_init (VStr "GET") true tt in
  {| url := url self; method := method self; data := data self;
     headers := headers self; is_read_request := is_read_request self;
     failed_nodes := failed_nodes self;
     authentication_retries := authentication_retries self;
     avoid_failover := true; own := own self |}.

Definition set_response (self : t) (response : option Response.t) : result pyval :=
  bindR (response_status_code response) (fun status_code =>
  if status_code =? 200
  then response_json response
  else
    bindR (response_status_code response) (fun status_code =>
    bindR (if status_code =? 400
           then bindR (getattr log "debug") (fun debug =>
                bindR (response_json response) (fun j =>
                bindR (getitem_str j "Error") (fun e =>
                call debug [e])))
           else Ok VNone) (fun _ =>
    Ok VNone))).
End GetTopologyCommand.

(** ** class DeleteIndexCommand *)
Module DeleteIndexCommand.
Record fields := { index_name : pyval }.
Definition t := RavenCommand fields.

Definition init (index_name : pyval) : t :=
  RavenCommand_init (VStr "DELETE") false {| index_name := index_name |}.

Section Methods.
Context (ext : External).

Definition create_request (server_node : ServerNode.t) : M t unit :=
  self <- get ;;
  when (negb (truthy (index_name (own self))))
       (raise ValueError (VStr "None or empty index_name is invalid")) ;;
  q <- lift (quote_key ext (index_name (own self)) true) ;;
  u <- lift (str_format ext "{0}/databases/{1}/indexes?name={2}"
               [VStr (ServerNode.url server_node);
                VStr (ServerNode.database server_node); VStr q] []) ;;
  set_url (VStr u).
End Methods.

(** [pass] *)
Definition set_response (self : t) (response : option Response.t) : result pyval :=
  Ok VNone.
End DeleteIndexCommand.

(** ** class PatchByIndexCommand *)
Module PatchByIndexCommand.
Record fields := {
  index_name : pyval;
  query_to_update : pyval;
  patch : pyval;
  options : pyval
}.
Definition t := RavenCommand fields.

Definition init (index_name query_to_update patch options : pyval) : t :=
  RavenCommand_init (VStr "PATCH") false
    {| index_name := index_name; query_to_update := query_to_update;
       patch := patch; options := options |}.

Section Methods.
Context (ext : External) (utils : Utils).

Definition create_request (server_node : ServerNode.t) : M t unit :=
  self <- get ;;
  when (negb (isinstance_IndexQuery (query_to_update (own self))))
       (raise ValueError (VStr "query must be IndexQuery Type")) ;;
  when (truthy (patch (own self)))
       (when (negb (isinstance_PatchRequest (patch (own self))))
             (raise ValueError (VStr "scripted_patch must be ScriptedPatchRequest Type")) ;;
        patch_json <- lift (call_method (patch (own self)) "to_json") ;;
        set_own {| index_name := index_name (own self);
                   query_to_update := query_to_update (own self);
                   patch := patch_json; options := options (own self) |}) ;;
  self <- get ;;
  path <- lift (build_path utils (index_name (own self)) (query_to_update (own self))
                           (options (own self))) ;;
  set_database_url ext server_node path ;;
  set_data (patch (own self)).
End Methods.
End PatchByIndexCommand.

(** ** class CreateDatabaseCommand *)
Module CreateDatabaseCommand.
Record fields := { database_document : pyval }.
Definition t := RavenCommand fields.

Definition init (database_document : pyval) : t :=
  RavenCommand_init (VStr "PUT") false {| database_document := database_document |}.

Section Methods.
Context (ext : External) (utils : Utils).

Definition create_request (server_node : ServerNode.t) : M t unit :=
  self <- get ;;
  settings <- lift (getattr (database_document (own self)) "settings") ;;
  has_data_dir <- lift (contains_str "Raven/DataDir" settings) ;;
  when (negb has_data_dir)
       (raise InvalidOperationException (VStr "The Raven/DataDir setting is mandatory")) ;;
  database_id <- lift (getattr (database_document (own self)) "database_id") ;;
  db_name <- lift (py_replace database_id "Raven/Databases/" EmptyString) ;;
  lift (name_validation utils db_name) ;;
  q <- lift (quote_key ext (VStr db_name) false) ;;
  u <- lift (str_format ext "{0}/admin/databases?name={1}"
               [VStr (ServerNode.url server_node); VStr q] []) ;;
  set_url (VStr u) ;;
  document_json <- lift (call_method (database_document (own self)) "to_json") ;;
  set_data document_json.
End Methods.

(** A status other than 201 and 400 falls off the end of the method, which
    returns None. *)
Definition set_response (self : t) (response : option Response.t) : result pyval :=
  match response with
  | None => Raise ValueError (VStr "response is invalid.")
  | Some r =>
      if Response.status_code r =? 201
      then Response.json r
      else if Response.status_code r =? 400
           then bindR (Response.json r) (fun response =>
                bindR (getitem_str response "Message") (fun message =>
                Raise ErrorResponseException message))
           else Ok VNone
  end.
End CreateDatabaseCommand.

(** ** class DeleteDatabaseCommand *)
Module DeleteDatabaseCommand.
Record fields := { name : pyval; hard_delete : bool }.
Definition t := RavenCommand fields.

Definition init (name : pyval) (hard_delete : bool) : t :=
  RavenCommand_init (VStr "DELETE") false {| name := name; hard_delete := hard_delete |}.

Section Methods.
Context (ext : External).

Definition create_request (server_node : ServerNode.t) : M t unit :=
  self <- get ;;
  db_name <- lift (py_replace (name (own self)) "Rave/Databases/" EmptyString) ;;
  q <- lift (quote_key ext (VStr db_name) false) ;;
  u <- lift (str_format ext "{0}/admin/databases?name={1}"
               [VStr (ServerNode.url server_node); VStr q] []) ;;
  set_url (VStr u) ;;
  when (hard_delete (own self))
       (self <- get ;;
        u <- lift (match url self with
                   | VStr u => str_add u (VStr "&hard-delete=true")
                   | v => Raise TypeError
                            (VStr ("unsupported operand type(s) for +=: '"
                                   ++ type_name v ++ "' and 'str'"))
                   end) ;;
        set_url (VStr u)).
End Methods.
End DeleteDatabaseCommand.

(** ** An instance of the parameters

    [sample_ext] serves to run the commands on concrete inputs: it quotes a
    str by percent-encoding every character other than a letter, a digit or
    one of [_ . - ~] and refuses any other value, takes the names of the
    QueryOperator members as their values and keeps the exception classes of
    the package apart from ValueError. *)
Definition hex_digit (n : nat) : ascii :=
  if (n <? 10)%nat then ascii_of_nat (48 + n) else ascii_of_nat (55 + n).

Definition unreserved (c : ascii) : bool :=
  let n := nat_of_ascii c in
  ((48 <=? n) && (n <=? 57) || (65 <=? n) && (n <=? 90) || (97 <=? n) && (n <=? 122)
   || (n =? 45) || (n =? 46) || (n =? 95) || (n =? 126))%nat.

Fixpoint percent_encode (s : string) : string :=
  match s with
  | EmptyString => EmptyString
  | String c t =>
      if unreserved c then String c (percent_encode t)
      else let n := nat_of_ascii c in
           String "%" (String (hex_digit (n / 16)) (String (hex_digit (n mod 16))
                      (percent_encode t)))
  end.

Definition sample_ext : External :=
  {| quote_key := fun v _ =>
       match v with
       | VStr s => Ok (percent_encode s)
       | _ => Raise TypeError (VStr "quote_from_bytes() expected bytes")
       end;
     QueryOperator_value := fun op => match op with OR => VStr "OR" | AND => VStr "AND" end;
     derives_ValueError := fun _ => false;
     repr := fun v => "<" ++ type_name v ++ ">" |}.

Definition sample_node : ServerNode.t :=
  {| ServerNode.url := "http://localhost:8080"; ServerNode.database := "NorthWind" |}.

(** ** Vocabulary of the statements *)

(** [self.url] once [create_request] has gone through:
    [{node.url}/databases/{node.database}/{path}]. *)
Definition database_url (server_node : ServerNode.t) (path : string) : string :=
  ServerNode.url server_node ++ "/databases/" ++ ServerNode.database server_node
    ++ "/" ++ path.

(** [Utils.quote_key] turns every str into a str, [enc] naming the result. *)
Definition quotes_with (ext : External) (enc : string -> bool -> string) : Prop :=
  forall s flag, quote_key ext (VStr s) flag = Ok (enc s flag).

(** An optional list of strs as the caller passes it: None or a list. *)
Definition optional_list (l : option (list string)) : pyval :=
  match l with
  | None => VNone
  | Some items => VList (map VStr items)
  end.

(** [OrderedDict.fromkeys] on a list of strs: the keys it keeps. *)
Definition distinct_keys (keys : list string) : list string :=
  fold_left (fun d k => if existsb (String.eqb k) d then d else (d ++ [k])%list) keys [].

(** Position of the first occurrence of [k] in [l] ([length l] when there is
    none). *)
Fixpoint first_index (k : string) (l : list string) : nat :=
  match l with
  | [] => O
  | x :: t => if String.eqb k x then O else S (first_index k t)
  end.

(** [sum(len(x) for x in keys)] *)
Definition total_length (keys : list string) : Z :=
  sum (map (fun k => Z.of_nat (String.length k)) keys).

(** The text that [prefix + Utils.quote_key(item)] adds for each item. *)
Definition quoted_items (enc : string -> bool -> string) (prefix : string)
           (items : list string) : string :=
  String.concat EmptyString (map (fun item => prefix ++ enc item false) items).

(** The path of a GetDocumentCommand before any id is added. *)
Definition docs_path (enc : string -> bool -> string) (includes : option (list string))
  : string :=
  "docs?"
  ++ match includes with
     | Some items => quoted_items enc "&include=" items
     | None => EmptyString
     end.

(** A key of 1025 characters, longer than the limit of a GET request. *)
Definition long_key : string := string_of_list_ascii (repeat "k"%char 1025).

(** The parameter [enc] that goes with [sample_ext]. *)
Definition sample_enc (s : string) (flag : bool) : string := percent_encode s.

(** A block of statements that assigns nothing and does not raise. *)
Definition pure_ok {S A} (m : M S A) : Prop :=
  forall s, exists a, m s = (Ok a, s).

(** What a block of statements does to [self.url] and [self.data]: it leaves
    them alone, or it never raises, or it leaves them alone whenever it
    raises. *)
Definition keeps {F A} (m : M (RavenCommand F) A) : Prop :=
  forall s, url (snd (m s)) = url s /\ data (snd (m s)) = data s.

Definition never_raises {S A} (m : M S A) : Prop :=
  forall s, exists a, fst (m s) = Ok a.

Definition raises_clean {F A} (m : M (RavenCommand F) A) : Prop :=
  forall s c arg, fst (m s) = Raise c arg ->
                  url (snd (m s)) = url s /\ data (snd (m s)) = data s.

(** The other attributes of the base class: two states of a command agree
    on the four that the transport owns; they agree on [self.method].  A
    block of statements respects a relation when the state it leaves is
    related to the state it found, whether it raises or not. *)
Definition same_transport_state {F} (s s' : RavenCommand F) : Prop :=
  is_read_request s' = is_read_request s
  /\ failed_nodes s' = failed_nodes s
  /\ authentication_retries s' = authentication_retries s
  /\ avoid_failover s' = avoid_failover s.

Definition same_method {F} (s s' : RavenCommand F) : Prop :=
  method s' = method s.

Definition respects {F A} (R : RavenCommand F -> RavenCommand F -> Prop)
           (m : M (RavenCommand F) A) : Prop :=
  forall s, R s (snd (m s)).

(** A database document as CreateDatabaseCommand reads it: the attributes
    [database_id] and [settings] and the method [to_json]. *)
Definition DatabaseDocument (database_id : string) (settings : list (string * pyval))
           (to_json : pyval) : pyval :=
  VObject "DatabaseDocument"
          [("database_id", VStr database_id); ("settings", VDict settings)]
          [("to_json", to_json)].

(** An instance of the two other helpers, to run the commands on concrete
    inputs: every name is accepted and the path is the index name after
    [bulk_docs/]. *)
Definition sample_utils : Utils :=
  {| build_path := fun index_name _ _ =>
       match index_name with
       | VStr s => Ok ("bulk_docs/" ++ percent_encode s)
       | v => no_attribute v "encode"
       end;
     name_validation := fun _ => Ok tt |}.

(** * Properties *)

(** ** Strings, key lists and the running of method bodies *)

Lemma append_nil_r (s : string) : s ++ EmptyString = s.
Proof. induction s as [|c s IH]; simpl; [reflexivity | now rewrite IH]. Qed.

Lemma append_assoc (a b c : string) : (a ++ b) ++ c = a ++ (b ++ c).
Proof. induction a as [|x a IH]; simpl; [reflexivity | now rewrite IH]. Qed.

Lemma existsb_eqb_In (k : string) (d : list string) :
  existsb (String.eqb k) d = true <-> In k d.
Proof.
  rewrite existsb_exists. split.
  - intros [x [Hin Heq]]. apply String.eqb_eq in Heq. now subst.
  - intros Hin. exists k. split; [assumption | apply String.eqb_refl].
Qed.

Lemma distinct_keys_snoc (l : list string) (x : string) :
  distinct_keys (l ++ [x]) =
  if existsb (String.eqb x) (distinct_keys l) then distinct_keys l
  else (distinct_keys l ++ [x])%list.
Proof. unfold distinct_keys. now rewrite fold_left_app. Qed.

Lemma distinct_keys_In (l : list string) (k : string) :
  In k (distinct_keys l) <-> In k l.
Proof.
  induction l as [|x l IH] using rev_ind.
  - reflexivity.
  - rewrite distinct_keys_snoc, in_app_iff.
    destruct (existsb (String.eqb x) (distinct_keys l)) eqn:E.
    + apply existsb_eqb_In in E. rewrite IH in *. simpl.
      intuition (subst; auto).
    + rewrite in_app_iff, IH. reflexivity.
Qed.

Lemma NoDup_snoc (l : list string) (x : string) :
  NoDup l -> ~ In x l -> NoDup (l ++ [x]).
Proof.
  induction 1 as [|a l Ha Hl IH]; intros Hx; simpl.
  - constructor; [tauto | constructor].
  - constructor.
    + rewrite in_app_iff. simpl in *. intuition congruence.
    + apply IH. simpl in Hx. tauto.
Qed.

Lemma distinct_keys_NoDup (l : list string) : NoDup (distinct_keys l).
Proof.
  induction l as [|x l IH] using rev_ind.
  - constructor.
  - rewrite distinct_keys_snoc.
    destruct (existsb (String.eqb x) (distinct_keys l)) eqn:E; [assumption|].
    apply NoDup_snoc; [assumption|].
    intros Hin. apply existsb_eqb_In in Hin. congruence.
Qed.

Lemma first_index_app_In (k : string) (l r : list string) :
  In k l -> first_index k (l ++ r) = first_index k l.
Proof.
  induction l as [|x l IH]; simpl; [tauto|].
  intros [->|Hin].
  - now rewrite String.eqb_refl.
  - destruct (String.eqb k x); [reflexivity | now rewrite IH].
Qed.

Lemma first_index_app_notin (k : string) (l r : list string) :
  ~ In k l -> first_index k (l ++ r) = (List.length l + first_index k r)%nat.
Proof.
  induction l as [|x l IH]; simpl; [reflexivity|].
  intros Hnot. destruct (String.eqb_spec k x) as [->|_]; [tauto|].
  rewrite IH; tauto.
Qed.

Lemma first_index_lt (k : string) (l : list string) :
  In k l -> (first_index k l < List.length l)%nat.
Proof.
  induction l as [|x l IH]; simpl; [tauto|].
  intros H. destruct (String.eqb_spec k x) as [->|Hne]; [lia|].
  destruct H as [->|H]; [congruence|]. apply IH in H. lia.
Qed.

Lemma StronglySorted_snoc (l : list nat) (n : nat) :
  StronglySorted lt l -> Forall (fun a => (a < n)%nat) l -> StronglySorted lt (l ++ [n]).
Proof.
  induction 1 as [|a l Hs IH Ha]; intros Hall; simpl.
  - repeat constructor.
  - inversion Hall; subst. constructor; [now apply IH|].
    apply Forall_app. split; [assumption | now repeat constructor].
Qed.

Lemma distinct_keys_first_seen (l : list string) :
  StronglySorted lt (map (fun k => first_index k l) (distinct_keys l)).
Proof.
  induction l as [|x l IH] using rev_ind.
  - constructor.
  - assert (Hsame : map (fun k => first_index k (l ++ [x])) (distinct_keys l)
                    = map (fun k => first_index k l) (distinct_keys l)).
    { apply map_ext_in. intros k Hk. apply first_index_app_In.
      now apply distinct_keys_In. }
    rewrite distinct_keys_snoc.
    destruct (existsb (String.eqb x) (distinct_keys l)) eqn:E.
    + now rewrite Hsame.
    + rewrite map_app, Hsame. simpl.
      assert (Hnot : ~ In x l).
      { intros Hin. apply distinct_keys_In, existsb_eqb_In in Hin. congruence. }
      rewrite (first_index_app_notin _ _ _ Hnot). simpl. rewrite String.eqb_refl.
      apply StronglySorted_snoc; [assumption|].
      apply Forall_forall. intros a Ha. apply in_map_iff in Ha.
      destruct Ha as [k [<- Hk]]. apply (proj1 (distinct_keys_In _ _)) in Hk.
      apply first_index_lt in Hk. lia.
Qed.

Lemma existsb_key_eqb_str (k : string) (d : list string) :
  existsb (key_eqb (VStr k)) (map VStr d) = existsb (String.eqb k) d.
Proof. induction d as [|x d IH]; simpl; [reflexivity | now rewrite IH]. Qed.

Lemma fromkeys_str_from (keys d : list string) :
  fold_left (fun acc k => bindR acc (fun d => OrderedDict_insert d k))
            (map VStr keys) (Ok (map VStr d))
  = Ok (map VStr (fold_left (fun d k => if existsb (String.eqb k) d then d
                                        else (d ++ [k])%list) keys d)).
Proof.
  revert d. induction keys as [|k keys IH]; intros d; simpl; [reflexivity|].
  unfold OrderedDict_insert at 2. simpl. rewrite existsb_key_eqb_str.
  destruct (existsb (String.eqb k) d).
  - apply IH.
  - rewrite <- (IH (d ++ [k])%list), map_app. reflexivity.
Qed.

Lemma OrderedDict_fromkeys_str (keys : list string) :
  OrderedDict_fromkeys (map VStr keys) = Ok (map VStr (distinct_keys keys)).
Proof. exact (fromkeys_str_from keys []). Qed.

Lemma mapR_len_str (keys : list string) :
  mapR py_len (map VStr keys) = Ok (map (fun k => Z.of_nat (String.length k)) keys).
Proof. induction keys as [|k keys IH]; simpl; [reflexivity | now rewrite IH]. Qed.

Lemma join_quoted_str ext enc prefix (items : list string) :
  quotes_with ext enc ->
  GetDocumentCommand.join_quoted ext prefix (map VStr items)
  = Ok (quoted_items enc prefix items).
Proof.
  intros Henc. unfold GetDocumentCommand.join_quoted, quoted_items.
  assert (H : mapR (fun item => bindR (quote_key ext item false)
                                      (fun q => Ok (prefix ++ q))) (map VStr items)
              = Ok (map (fun item => prefix ++ enc item false) items)).
  { induction items as [|k items IH]; simpl; [reflexivity|].
    rewrite Henc. simpl. now rewrite IH. }
  now rewrite H.
Qed.

Lemma bind_ok {S A B} (m : M S A) (k : A -> M S B) (s : S) (a : A) (s' : S) :
  m s = (Ok a, s') -> bind m k s = k a s'.
Proof. intros H. unfold bind. now rewrite H. Qed.

Lemma bind_raise {S A B} (m : M S A) (k : A -> M S B) (s : S) c arg (s' : S) :
  m s = (Raise c arg, s') -> bind m k s = (Raise c arg, s').
Proof. intros H. unfold bind. now rewrite H. Qed.

Lemma bind_assoc {S A B C} (m : M S A) (k : A -> M S B) (h : B -> M S C) (s : S) :
  bind (bind m k) h s = bind m (fun x => bind (k x) h) s.
Proof. unfold bind. destruct (m s) as [[a|c arg] s']; reflexivity. Qed.

(** One statement of a method body whose outcome computes. *)
Ltac step :=
  match goal with
  | |- context [bind ?m ?k ?s] =>
      let r := eval hnf in (m s) in
      lazymatch r with
      | (?x, ?s') =>
          let x := eval cbn in x in
          lazymatch x with
          | Ok ?a => rewrite (bind_ok m k s a s' eq_refl)
          | Raise ?c ?arg => rewrite (bind_raise m k s c arg s' eq_refl)
          end
      end; cbv beta zeta
  end.

Lemma set_database_url_run {F} ext server_node path (self : RavenCommand F) :
  set_database_url ext server_node path self
  = (Ok tt, snd (set_url (VStr (database_url server_node path)) self)).
Proof.
  unfold set_database_url, database_url, bind, lift. cbn.
  now rewrite append_nil_r.
Qed.

Lemma include_path_run ext enc includes (self : GetDocumentCommand.t) :
  quotes_with ext enc ->
  GetDocumentCommand.includes (own self) = optional_list includes ->
  (if truthy (GetDocumentCommand.includes (own self))
   then bind (lift (py_iter (GetDocumentCommand.includes (own self)))) (fun items =>
        bind (lift (GetDocumentCommand.join_quoted ext "&include=" items)) (fun inc =>
        ret ("docs?" ++ inc)))
   else ret "docs?") self
  = (Ok (docs_path enc includes), self).
Proof.
  intros Henc ->. destruct includes as [[|i l]|]; try reflexivity.
  cbn [optional_list truthy map py_iter]. unfold bind, lift at 1.
  unfold lift. rewrite <- map_cons, (join_quoted_str ext enc _ _ Henc). reflexivity.
Qed.

Lemma GetDocument_key_list_post
      ext enc server_node keys includes metadata_only force_read_from_master :
  quotes_with ext enc ->
  total_length (distinct_keys keys) > 1024 ->
  GetDocumentCommand.create_request ext server_node
    (GetDocumentCommand.init (VList (map VStr keys)) (optional_list includes)
                             metadata_only force_read_from_master)
  = (Ok tt,
     {| url := VStr (database_url server_node
                       (docs_path enc includes ++
                        if metadata_only then "&metadata-only=True" else EmptyString));
        method := VStr "POST"; data := VList (map VStr (distinct_keys keys)); headers := VDict [];
        is_read_request := true; failed_nodes := [];
        authentication_retries := 0; avoid_failover := false;
        own := {| GetDocumentCommand.key_or_keys := (VList (map VStr keys));
                  GetDocumentCommand.includes := optional_list includes;
                  GetDocumentCommand.metadata_only := metadata_only;
                  GetDocumentCommand.force_read_from_master := force_read_from_master |} |}).
Proof.
  intros Henc Hlen.
  unfold GetDocumentCommand.create_request.
  set (self := GetDocumentCommand.init _ _ _ _).
  step. step.
  rewrite (bind_ok _ _ self (docs_path enc includes) self)
    by (apply include_path_run; [assumption | reflexivity]).
  cbn [own self GetDocumentCommand.init RavenCommand_init GetDocumentCommand.key_or_keys
       GetDocumentCommand.metadata_only].
  rewrite bind_assoc.
  rewrite (bind_ok (lift (OrderedDict_fromkeys _)) _ _ _ _
             (f_equal (fun r => (r, _)) (OrderedDict_fromkeys_str keys))).
  cbv beta zeta. rewrite bind_assoc.
  rewrite (bind_ok (lift (mapR py_len _)) _ _ _ _
             (f_equal (fun r => (r, _)) (mapR_len_str _))).
  fold (total_length (distinct_keys keys)).
  destruct (Z.gtb_spec (total_length (distinct_keys keys)) 1024) as [_|Hle]; [|lia].
  rewrite !bind_assoc. repeat step.
  rewrite set_database_url_run. cbn.
  destruct metadata_only; rewrite ?append_nil_r; reflexivity.
Qed.

Lemma GetDocument_key_list_get
      ext enc server_node keys includes metadata_only force_read_from_master :
  quotes_with ext enc ->
  total_length (distinct_keys keys) <= 1024 ->
  GetDocumentCommand.create_request ext server_node
    (GetDocumentCommand.init (VList (map VStr keys)) (optional_list includes)
                             metadata_only force_read_from_master)
  = (Ok tt,
     {| url := VStr (database_url server_node
                       ((docs_path enc includes ++
                         if metadata_only then "&metadata-only=True" else EmptyString)
                        ++ quoted_items enc "&id=" (distinct_keys keys)));
        method := VStr "GET"; data := VNone; headers := VDict [];
        is_read_request := true; failed_nodes := [];
        authentication_retries := 0; avoid_failover := false;
        own := {| GetDocumentCommand.key_or_keys := (VList (map VStr keys));
                  GetDocumentCommand.includes := optional_list includes;
                  GetDocumentCommand.metadata_only := metadata_only;
                  GetDocumentCommand.force_read_from_master := force_read_from_master |} |}).
Proof.
  intros Henc Hlen.
  unfold GetDocumentCommand.create_request.
  set (self := GetDocumentCommand.init _ _ _ _).
  step. step.
  rewrite (bind_ok _ _ self (docs_path enc includes) self)
    by (apply include_path_run; [assumption | reflexivity]).
  cbn [own self GetDocumentCommand.init RavenCommand_init GetDocumentCommand.key_or_keys
       GetDocumentCommand.metadata_only].
  rewrite bind_assoc.
  rewrite (bind_ok (lift (OrderedDict_fromkeys _)) _ _ _ _
             (f_equal (fun r => (r, _)) (OrderedDict_fromkeys_str keys))).
  cbv beta zeta. rewrite bind_assoc.
  rewrite (bind_ok (lift (mapR py_len _)) _ _ _ _
             (f_equal (fun r => (r, _)) (mapR_len_str _))).
  fold (total_length (distinct_keys keys)).
  destruct (Z.gtb_spec (total_length (distinct_keys keys)) 1024) as [Hgt|_]; [lia|].
  rewrite !bind_assoc.
  rewrite (bind_ok (lift (GetDocumentCommand.join_quoted _ _ _)) _ _ _ _
             (f_equal (fun r => (r, _)) (join_quoted_str ext enc _ _ Henc))).
  repeat step.
  rewrite set_database_url_run. cbn.
  destruct metadata_only; rewrite ?append_nil_r; reflexivity.
Qed.

Lemma GetDocument_single_key
      ext enc server_node key includes metadata_only force_read_from_master :
  quotes_with ext enc ->
  GetDocumentCommand.create_request ext server_node
    (GetDocumentCommand.init (VStr key) (optional_list includes)
                             metadata_only force_read_from_master)
  = (Ok tt,
     {| url := VStr (database_url server_node
                       (docs_path enc includes ++ "&id=" ++ enc key false));
        method := VStr "GET"; data := VNone; headers := VDict [];
        is_read_request := true; failed_nodes := [];
        authentication_retries := 0; avoid_failover := false;
        own := {| GetDocumentCommand.key_or_keys := (VStr key);
                  GetDocumentCommand.includes := optional_list includes;
                  GetDocumentCommand.metadata_only := metadata_only;
                  GetDocumentCommand.force_read_from_master := force_read_from_master |} |}).
Proof.
  intros Henc.
  unfold GetDocumentCommand.create_request.
  set (self := GetDocumentCommand.init _ _ _ _).
  step. step.
  rewrite (bind_ok _ _ self (docs_path enc includes) self)
    by (apply include_path_run; [assumption | reflexivity]).
  cbn [own self GetDocumentCommand.init RavenCommand_init GetDocumentCommand.key_or_keys].
  rewrite !bind_assoc.
  rewrite (bind_ok (lift (quote_key _ _ _)) _ _ _ _
             (f_equal (fun r => (r, _)) (Henc key false))).
  cbv beta. rewrite !bind_assoc. repeat step.
  rewrite set_database_url_run. cbn.
  rewrite ?append_nil_r; reflexivity.
Qed.

(** ** PutDocumentCommand *)

Lemma is_None_false (v : pyval) : v <> VNone -> is_None v = false.
Proof. destruct v; simpl; congruence. Qed.

(** The If-Match header of PutDocumentCommand is built with
    [{etag}.format(self.etag)], a keyword field given a positional argument. *)
Lemma etag_format_raises ext (etag : pyval) :
  str_format ext (dquote ++ "{etag}" ++ dquote) [etag] [] = Raise KeyError (VStr "etag").
Proof. reflexivity. Qed.

(** The sibling DeleteDocumentCommand writes the field as [{0}] and gets the
    header. *)
Lemma DeleteDocument_create_request_if_match ext enc server_node key etag :
  quotes_with ext enc ->
  headers (snd (DeleteDocumentCommand.create_request ext server_node
                  (DeleteDocumentCommand.init (VStr key) (VStr etag))))
  = VDict [("If-Match", VStr (dquote ++ etag ++ dquote))].
Proof.
  intros Henc. unfold DeleteDocumentCommand.create_request.
  set (self := DeleteDocumentCommand.init _ _).
  repeat step.
  cbn [own self DeleteDocumentCommand.init RavenCommand_init DeleteDocumentCommand.key].
  rewrite (bind_ok (lift (quote_key _ _ _)) _ _ _ _
             (f_equal (fun r => (r, _)) (Henc key false))).
  repeat step. reflexivity.
Qed.

(** C1, first half, as the code has it: with an etag that is not None,
    [PutDocumentCommand.create_request] raises KeyError while it builds the
    header, so no If-Match header reaches [self.headers] (and neither
    [self.url] nor [self.data] is set). *)
Theorem PutDocument_create_request_etag_raises ext server_node key document etag :
  etag <> VNone ->
  let after := PutDocumentCommand.create_request ext server_node
                 (PutDocumentCommand.init key document etag) in
  fst after = Raise KeyError (VStr "etag")
  /\ headers (snd after) = VDict []
  /\ url (snd after) = VNone /\ data (snd after) = VNone.
Proof.
  intros Hetag after. subst after.
  unfold PutDocumentCommand.create_request, PutDocumentCommand.init, bind, get, when.
  cbn. destruct (is_None document); cbn; rewrite (is_None_false _ Hetag); cbn; auto.
Qed.

Lemma PutDocument_create_request_etag_raises_witness :
  VStr "1" <> VNone
  /\ fst (PutDocumentCommand.create_request sample_ext sample_node
            (PutDocumentCommand.init (VStr "docs/1") (VDict []) (VStr "1")))
     = Raise KeyError (VStr "etag").
Proof.
  split; [discriminate|].
  apply (PutDocument_create_request_etag_raises sample_ext sample_node
           (VStr "docs/1") (VDict []) (VStr "1")).
  discriminate.
Defined.

(** C1, second half: without an etag no header is added, whatever the key
    and the document are. *)
Lemma PutDocument_create_request_without_etag ext server_node key document :
  headers (snd (PutDocumentCommand.create_request ext server_node
                  (PutDocumentCommand.init key document VNone))) = VDict [].
Proof. destruct document, key; reflexivity. Qed.

(** C6: on a JSON body with an "Error" field, [PutDocumentCommand.set_response]
    raises FetchConcurrencyException when the body also has "ActualEtag"
    (FetchConcurrencyException not being a ValueError, which the [except]
    clause would turn into the generic error) and ErrorResponseException when
    it has not. *)
Theorem PutDocument_set_response_error ext self r d :
  Response.body r = Some (VDict d) ->
  has_key "Error" d = true ->
  (has_key "ActualEtag" d = true ->
   derives_ValueError ext FetchConcurrencyException = false ->
   raises (PutDocumentCommand.set_response ext self (Some r)) FetchConcurrencyException)
  /\ (has_key "ActualEtag" d = false ->
      raises (PutDocumentCommand.set_response ext self (Some r)) ErrorResponseException).
Proof.
  intros Hbody Herr.
  assert (Hget : exists e, getitem_str (VDict d) "Error" = Ok e).
  { unfold has_key in Herr. simpl. destruct (assoc "Error" d) as [e|]; [|discriminate].
    now exists e. }
  destruct Hget as [e He].
  unfold PutDocumentCommand.set_response, response_json, Response.json.
  rewrite Hbody. cbn [bindR contains_str]. rewrite Herr.
  split; intros Hetag; rewrite Hetag; cbn [bindR]; rewrite He; cbn [bindR].
  - intros Hclass. exists e. unfold try_except_ValueError, caught_by_ValueError.
    now rewrite Hclass.
  - unfold try_except_ValueError, caught_by_ValueError.
    destruct (derives_ValueError ext ErrorResponseException); eexists; reflexivity.
Qed.

Lemma PutDocument_set_response_error_witness :
  raises (PutDocumentCommand.set_response sample_ext
            (PutDocumentCommand.init (VStr "docs/1") (VDict []) VNone)
            (Some {| Response.status_code := 409;
                     Response.body :=
                       Some (VDict [("Error", VStr "conflict"); ("ActualEtag", VStr "2")]) |}))
         FetchConcurrencyException.
Proof.
  apply (PutDocument_set_response_error sample_ext _ _
           [("Error", VStr "conflict"); ("ActualEtag", VStr "2")]);
    reflexivity.
Defined.

(** Were FetchConcurrencyException a ValueError, the [except ValueError]
    clause around the body would replace it by the generic error. *)
Lemma PutDocument_set_response_conflict_caught ext self r d :
  Response.body r = Some (VDict d) ->
  has_key "Error" d = true -> has_key "ActualEtag" d = true ->
  derives_ValueError ext FetchConcurrencyException = true ->
  raises (PutDocumentCommand.set_response ext self (Some r)) ErrorResponseException.
Proof.
  intros Hbody Herr Hetag Hclass.
  unfold PutDocumentCommand.set_response, response_json, Response.json.
  rewrite Hbody. cbn [bindR contains_str]. rewrite Herr, Hetag. cbn [bindR].
  unfold has_key in Herr. simpl. destruct (assoc "Error" d) as [e|]; [|discriminate].
  cbn [bindR]. unfold try_except_ValueError, caught_by_ValueError.
  rewrite Hclass. eexists; reflexivity.
Qed.

(** ** set_response on None *)

(** C2 as the code has it: of the six commands for which None means absence,
    four return None on a None response; DeleteDocumentCommand raises
    AttributeError at [log.info], [log] being None, and GetTopologyCommand
    raises AttributeError at [response.status_code]. *)
Theorem set_response_None_outcomes :
  (forall ext self, GetDocumentCommand.set_response ext self None = Ok VNone)
  /\ (forall self, GetIndexCommand.set_response self None = Ok VNone)
  /\ (forall self, GetStatisticsCommand.set_response self None = Ok VNone)
  /\ (forall self, PatchCommand.set_response self None = Ok VNone)
  /\ (forall ext self,
        raises (DeleteDocumentCommand.set_response ext self None) AttributeError)
  /\ (forall self, raises (GetTopologyCommand.set_response self None) AttributeError).
Proof.
  repeat split; intros; try reflexivity; eexists; reflexivity.
Qed.

(** ** PatchCommand.set_response *)

Lemma status_200_ok (r : Response.t) : Response.status_code r = 200 -> Response.ok r = true.
Proof. unfold Response.ok. now intros ->. Qed.

(** C10: [PatchCommand.set_response] returns None on a None response and on a
    status other than 200; on status 200 it returns the parsed body; and a
    result other than None comes from a response with status 200 only. *)
Theorem PatchCommand_set_response_outcomes self response :
  ((response = None \/ exists r, response = Some r /\ Response.status_code r <> 200) ->
   PatchCommand.set_response self response = Ok VNone)
  /\ (forall r j, response = Some r -> Response.status_code r = 200 ->
                  Response.body r = Some j ->
                  PatchCommand.set_response self response = Ok j)
  /\ (forall v, PatchCommand.set_response self response = Ok v -> v <> VNone ->
                exists r, response = Some r /\ Response.status_code r = 200
                          /\ Response.body r = Some v).
Proof.
  unfold PatchCommand.set_response. repeat split.
  - intros [->|[r [-> Hr]]]; [reflexivity|].
    cbn. destruct (Response.ok r); [|reflexivity].
    cbn. destruct (Z.eqb_spec (Response.status_code r) 200); [contradiction | reflexivity].
  - intros r j -> Hs Hb. cbn. rewrite (status_200_ok r Hs). cbn.
    rewrite Hs. cbn. unfold Response.json. now rewrite Hb.
  - intros v Hv Hnot. destruct response as [r|]; cbn in Hv; [|congruence].
    destruct (Response.ok r); cbn in Hv; [|congruence].
    destruct (Z.eqb_spec (Response.status_code r) 200) as [Hs|]; [|congruence].
    exists r. repeat split; [assumption|].
    unfold Response.json in Hv. destruct (Response.body r); congruence.
Qed.

Lemma PatchCommand_set_response_outcomes_witness :
  PatchCommand.set_response
    (PatchCommand.init (VStr "docs/1") VNone VNone VNone false false)
    (Some {| Response.status_code := 404; Response.body := None |}) = Ok VNone
  /\ PatchCommand.set_response
       (PatchCommand.init (VStr "docs/1") VNone VNone VNone false false)
       (Some {| Response.status_code := 200; Response.body := Some (VDict []) |})
     = Ok (VDict []).
Proof.
  split.
  - apply (PatchCommand_set_response_outcomes _ _). right.
    eexists. split; [reflexivity | discriminate].
  - eapply (PatchCommand_set_response_outcomes _ _); reflexivity.
Defined.

(** ** PutIndexesCommand *)

Lemma checked_json_outcome (d : pyval) :
  (exists j, PutIndexesCommand.checked_json d = Ok j)
  \/ raises (PutIndexesCommand.checked_json d) ValueError.
Proof.
  unfold PutIndexesCommand.checked_json.
  destruct d; cbn; try (right; eexists; reflexivity).
  destruct d1; cbn; try (left; eexists; reflexivity).
  right; eexists; reflexivity.
Qed.

(** C7 against the code: an index definition whose name is the empty string
    goes through the constructor. *)
Lemma PutIndexesCommand_init_empty_name_accepted :
  let args := [VIndexDefinition (VStr EmptyString) (VDict [("Name", VStr EmptyString)])] in
  (exists self, PutIndexesCommand.init args = Ok self)
  /\ forall c, ~ raises (PutIndexesCommand.init args) c.
Proof.
  split.
  - eexists. reflexivity.
  - intros c [arg H]. discriminate H.
Qed.

(** C7, amended: the constructor of PutIndexesCommand raises (a ValueError)
    for every argument list in which some index definition has the name None,
    and it is the constructor itself that raises. *)
Theorem PutIndexesCommand_init_None_name (args : list pyval) (to_json : pyval) :
  In (VIndexDefinition VNone to_json) args ->
  raises (PutIndexesCommand.init args) ValueError.
Proof.
  intros Hin. unfold PutIndexesCommand.init.
  assert (H : raises (mapR PutIndexesCommand.checked_json args) ValueError).
  { induction args as [|d args IH]; [contradiction|].
    cbn [mapR]. destruct (checked_json_outcome d) as [[j Hj]|[arg Hr]].
    - rewrite Hj. cbn [bindR]. destruct Hin as [->|Hin]; [discriminate Hj|].
      destruct (IH Hin) as [arg Hr]. rewrite Hr. now exists arg.
    - rewrite Hr. now exists arg. }
  destruct H as [arg H]. rewrite H. now exists arg.
Qed.

Lemma PutIndexesCommand_init_None_name_witness :
  raises (PutIndexesCommand.init
            [VIndexDefinition (VStr "Users/ByName") (VDict []);
             VIndexDefinition VNone (VDict [])]) ValueError.
Proof.
  apply (PutIndexesCommand_init_None_name _ (VDict [])).
  simpl. right. left. reflexivity.
Defined.

(** Any name other than None is accepted, the empty one included. *)
Lemma PutIndexesCommand_init_named (defs : list (pyval * pyval)) :
  Forall (fun d => fst d <> VNone) defs ->
  PutIndexesCommand.init (map (fun d => VIndexDefinition (fst d) (snd d)) defs)
  = Ok (RavenCommand_init (VStr "PUT") false
          {| PutIndexesCommand.indexes_to_add := map snd defs |}).
Proof.
  intros Hall. unfold PutIndexesCommand.init.
  assert (H : mapR PutIndexesCommand.checked_json
                (map (fun d => VIndexDefinition (fst d) (snd d)) defs)
              = Ok (map snd defs)).
  { induction Hall as [|[n j] defs Hn _ IH]; [reflexivity|].
    cbn [map mapR fst snd] in *. unfold PutIndexesCommand.checked_json at 1. cbn.
    rewrite (is_None_false _ Hn). cbn. now rewrite IH. }
  now rewrite H.
Qed.

(** ** BatchCommand *)

Lemma mapR_Forall2 {A B} (f : A -> result B) (l : list A) (r : list B) :
  Forall2 (fun x y => f x = Ok y) l r -> mapR f l = Ok r.
Proof.
  induction 1 as [|x y l r Hxy _ IH]; [reflexivity|].
  cbn [mapR]. rewrite Hxy. cbn [bindR]. now rewrite IH.
Qed.

(** C9: when every sub-command has a [command] attribute and a [to_json()],
    [BatchCommand.create_request] sets the body to the list of their JSON, in
    the order of the sequence. *)
Theorem BatchCommand_create_request_body ext server_node commands jsons :
  Forall2 (fun command json =>
             hasattr command "command" = true
             /\ call_method command "to_json" = Ok json) commands jsons ->
  let after := BatchCommand.create_request ext server_node (BatchCommand.init commands) in
  fst after = Ok tt
  /\ data (snd after) = VList jsons
  /\ url (snd after) = VStr (database_url server_node "bulk_docs").
Proof.
  intros Hall after. subst after.
  assert (H : mapR BatchCommand.serialize commands = Ok jsons).
  { apply mapR_Forall2. eapply Forall2_impl; [|exact Hall].
    intros c j [Hc Hj]. unfold BatchCommand.serialize. now rewrite Hc. }
  unfold BatchCommand.create_request.
  set (self := BatchCommand.init commands).
  step. cbn [own self BatchCommand.init RavenCommand_init BatchCommand.commands_array].
  rewrite (bind_ok (lift (mapR _ _)) _ _ _ _ (f_equal (fun r => (r, _)) H)).
  repeat step. cbn. repeat split; reflexivity.
Qed.

Lemma BatchCommand_create_request_body_witness :
  data (snd (BatchCommand.create_request sample_ext sample_node
               (BatchCommand.init
                  [VObject "PutCommandData" [("command", VBool true)]
                           [("to_json", VDict [("Method", VStr "PUT")])];
                   VObject "DeleteCommandData" [("command", VBool true)]
                           [("to_json", VDict [("Method", VStr "DELETE")])]])))
  = VList [VDict [("Method", VStr "PUT")]; VDict [("Method", VStr "DELETE")]].
Proof.
  apply (BatchCommand_create_request_body sample_ext sample_node).
  repeat constructor.
Defined.

(** ** create_request and the url and data attributes *)

Section Frame.
Context {F : Type}.

Lemma keeps_ret {A} (a : A) : keeps (@ret (RavenCommand F) A a).
Proof. intros s. split; reflexivity. Qed.

Lemma keeps_raise {A} c arg : keeps (@raise (RavenCommand F) A c arg).
Proof. intros s. split; reflexivity. Qed.

Lemma keeps_lift {A} (r : result A) : keeps (@lift (RavenCommand F) A r).
Proof. intros s. split; reflexivity. Qed.

Lemma keeps_get : keeps (@get (RavenCommand F)).
Proof. intros s. split; reflexivity. Qed.

Lemma keeps_set_method v : keeps (@set_method F v).
Proof. intros s. split; reflexivity. Qed.

Lemma keeps_set_headers v : keeps (@set_headers F v).
Proof. intros s. split; reflexivity. Qed.

Lemma keeps_set_own f : keeps (@set_own F f).
Proof. intros s. split; reflexivity. Qed.

Lemma keeps_bind {A B} (m : M (RavenCommand F) A) (k : A -> M (RavenCommand F) B) :
  keeps m -> (forall a, keeps (k a)) -> keeps (bind m k).
Proof.
  intros Hm Hk s. unfold bind. specialize (Hm s).
  destruct (m s) as [[a|c arg] s']; cbn [snd] in *; [|assumption].
  destruct (Hk a s') as [Hu Hd]. destruct Hm as [Hu' Hd']. split; congruence.
Qed.

Lemma keeps_when (cond : bool) (body : M (RavenCommand F) unit) :
  keeps body -> keeps (when cond body).
Proof. intros Hb. destruct cond; [assumption | apply keeps_ret]. Qed.

Lemma never_ret {A} (a : A) : never_raises (@ret (RavenCommand F) A a).
Proof. intros s. now exists a. Qed.

Lemma never_modify (f : RavenCommand F -> RavenCommand F) : never_raises (modify f).
Proof. intros s. now exists tt. Qed.

Lemma never_bind {A B} (m : M (RavenCommand F) A) (k : A -> M (RavenCommand F) B) :
  never_raises m -> (forall a, never_raises (k a)) -> never_raises (bind m k).
Proof.
  intros Hm Hk s. unfold bind. destruct (Hm s) as [a Ha].
  destruct (m s) as [r s']. cbn [fst] in Ha. subst r. apply Hk.
Qed.

Lemma never_set_database_url ext server_node path :
  never_raises (@set_database_url F ext server_node path).
Proof. intros s. exists tt. reflexivity. Qed.

Lemma clean_keeps {A} (m : M (RavenCommand F) A) : keeps m -> raises_clean m.
Proof. intros Hm s c arg _. apply Hm. Qed.

Lemma clean_never {A} (m : M (RavenCommand F) A) : never_raises m -> raises_clean m.
Proof. intros Hm s c arg Hr. destruct (Hm s) as [a Ha]. congruence. Qed.

Lemma clean_bind {A B} (m : M (RavenCommand F) A) (k : A -> M (RavenCommand F) B) :
  keeps m -> (forall a, raises_clean (k a)) -> raises_clean (bind m k).
Proof.
  intros Hm Hk s c arg. unfold bind. specialize (Hm s).
  destruct (m s) as [[a|c' arg'] s']; cbn [snd] in *.
  - intros Hr. destruct (Hk a s' c arg Hr) as [Hu Hd]. destruct Hm. split; congruence.
  - intros _. assumption.
Qed.

Lemma clean_assoc {A B C} (m : M (RavenCommand F) A) (k : A -> M (RavenCommand F) B) (h : B -> M (RavenCommand F) C) :
  raises_clean (bind m (fun x => bind (k x) h)) -> raises_clean (bind (bind m k) h).
Proof.
  intros H s c arg. rewrite bind_assoc. apply H.
Qed.
End Frame.

Create HintDb frame.
#[local] Hint Resolve keeps_ret keeps_raise keeps_lift keeps_get keeps_set_method
  keeps_set_headers keeps_set_own keeps_when keeps_bind never_ret never_modify
  never_bind never_set_database_url : frame.

Ltac frame_case :=
  match goal with
  | |- raises_clean (bind (if ?c then _ else _) _) => destruct c
  | |- raises_clean (bind (match ?x with _ => _ end) _) => destruct x
  | |- raises_clean (if ?c then _ else _) => destruct c
  | |- raises_clean (match ?x with _ => _ end) => destruct x
  end.

Ltac frame :=
  repeat first
    [ solve [apply clean_keeps; auto 8 with frame]
    | solve [apply clean_never; unfold set_url, set_data, set_method; auto 8 with frame]
    | apply clean_assoc
    | apply clean_bind; [solve [auto 8 with frame] | intro]
    | frame_case ].


(** The commands that check, quote and serialize before they assign: when
    their [create_request] raises, [self.url] and [self.data] are as
    before. *)
Lemma GetDocument_create_request_raise ext server_node :
  raises_clean (GetDocumentCommand.create_request ext server_node).
Proof. unfold GetDocumentCommand.create_request. frame. Qed.

Lemma DeleteDocument_create_request_raise ext server_node :
  raises_clean (DeleteDocumentCommand.create_request ext server_node).
Proof. unfold DeleteDocumentCommand.create_request. frame. Qed.

Lemma BatchCommand_create_request_raise ext server_node :
  raises_clean (BatchCommand.create_request ext server_node).
Proof. unfold BatchCommand.create_request. frame. Qed.

Lemma PutIndexes_create_request_raise ext server_node :
  raises_clean (PutIndexesCommand.create_request ext server_node).
Proof. unfold PutIndexesCommand.create_request. frame. Qed.

Lemma QueryCommand_create_request_raise ext server_node :
  raises_clean (QueryCommand.create_request ext server_node).
Proof. unfold QueryCommand.create_request. frame. Qed.

(** So does PutDocumentCommand, whose last format cannot fail once the key
    is known to be a str. *)
Lemma PutDocument_create_request_raise ext server_node :
  raises_clean (PutDocumentCommand.create_request ext server_node).
Proof.
  intros self c arg.
  destruct self as [u m d h r f a av [key document etag]].
  unfold PutDocumentCommand.create_request, bind, get, when. cbn.
  destruct (is_None document) eqn:Hdoc; cbn;
    (destruct (is_None etag) eqn:Hetag; cbn; [|intros _; split; reflexivity]);
    (destruct (isinstance_str key) eqn:Hkey; cbn; [|intros _; split; reflexivity]).
  - destruct key; try discriminate Hkey. cbn. discriminate.
  - destruct (isinstance_dict document) eqn:Hdict; cbn; [|intros _; split; reflexivity].
    destruct key; try discriminate Hkey. cbn. discriminate.
Qed.

(** C8 against the code: [PatchCommand.create_request] assigns [self.url]
    and only then calls [self.patch.to_json()]; the patch is checked against
    None but not against its class, so with a patch that has no [to_json]
    (a str, say) the call raises once the url has been set. *)
Theorem PatchCommand_create_request_sets_url_then_raises
        ext enc server_node key patch skip debug c arg :
  quotes_with ext enc ->
  patch <> VNone ->
  call_method patch "to_json" = Raise c arg ->
  let self := PatchCommand.init (VStr key) patch VNone VNone skip debug in
  let after := PatchCommand.create_request ext server_node self in
  fst after = Raise c arg
  /\ url self = VNone
  /\ url (snd after) =
       VStr (database_url server_node
               (("docs?id=" ++ enc key false)
                ++ (if skip then "&skipPatchIfEtagMismatch=true" else EmptyString)
                ++ (if debug then "&debug=true" else EmptyString)))
  /\ data (snd after) = VNone.
Proof.
  intros Henc Hpatch Hjson self after. subst after.
  unfold PatchCommand.create_request.
  step. step.
  rewrite (bind_ok (when (is_None (PatchCommand.patch (own self))) _) _ self tt self)
    by (cbn; now rewrite (is_None_false _ Hpatch)).
  step.
  cbn [own self PatchCommand.init RavenCommand_init PatchCommand.key].
  rewrite (bind_ok (lift (quote_key _ _ _)) _ _ _ _
             (f_equal (fun r => (r, _)) (Henc key false))).
  step. step.
  rewrite (bind_ok (set_database_url _ _ _) _ _ _ _ (set_database_url_run _ _ _ _)).
  cbn [own self PatchCommand.init RavenCommand_init PatchCommand.patch set_url modify snd].
  rewrite (bind_raise (lift (call_method patch _)) _ _ c arg _
             (f_equal (fun r => (r, _)) Hjson)).
  cbn. rewrite !append_nil_r.
  destruct skip, debug; cbn; rewrite ?append_nil_r, ?append_assoc; auto.
Qed.

Lemma PatchCommand_create_request_sets_url_then_raises_witness :
  let self := PatchCommand.init (VStr "docs/1") (VStr "this.Name = 'x'")
                                VNone VNone false false in
  let after := PatchCommand.create_request sample_ext sample_node self in
  raises (fst after) AttributeError
  /\ url self = VNone
  /\ url (snd after) = VStr "http://localhost:8080/databases/NorthWind/docs?id=docs%2F1".
Proof.
  destruct (PatchCommand_create_request_sets_url_then_raises
              sample_ext sample_enc sample_node "docs/1" (VStr "this.Name = 'x'")
              false false AttributeError
              (VStr "'str' object has no attribute 'to_json'"))
    as [Hfst [Hbefore [Hurl _]]];
    [intros s flag; reflexivity | discriminate | reflexivity |].
  cbv zeta. split; [eexists; exact Hfst | split; [exact Hbefore | exact Hurl]].
Defined.

(** PatchCommand is the one command here whose [create_request] can raise
    with [self.url] already assigned. *)
Lemma PatchCommand_create_request_not_clean :
  ~ raises_clean (PatchCommand.create_request sample_ext sample_node).
Proof.
  intros H.
  destruct (H (PatchCommand.init (VStr "docs/1") (VStr "this.Name = 'x'")
                                 VNone VNone false false)
              AttributeError (VStr "'str' object has no attribute 'to_json'") eq_refl)
    as [Hurl _].
  discriminate Hurl.
Qed.

(** ** GetDocumentCommand *)

(** C4: with a key list whose distinct keys add up to more than 1024
    characters, [GetDocumentCommand.create_request] switches to POST, puts the
    distinct keys in the body and leaves the ids out of the url. *)
Theorem GetDocument_create_request_long_key_list
        ext enc server_node keys includes metadata_only force_read_from_master :
  quotes_with ext enc ->
  total_length (distinct_keys keys) > 1024 ->
  let after := GetDocumentCommand.create_request ext server_node
                 (GetDocumentCommand.init (VList (map VStr keys)) (optional_list includes)
                                          metadata_only force_read_from_master) in
  fst after = Ok tt
  /\ method (snd after) = VStr "POST"
  /\ data (snd after) = VList (map VStr (distinct_keys keys))
  /\ url (snd after) =
       VStr (database_url server_node
               (docs_path enc includes ++
                if metadata_only then "&metadata-only=True" else EmptyString)).
Proof.
  intros Henc Hlen after. subst after.
  rewrite (GetDocument_key_list_post ext enc server_node keys includes metadata_only
             force_read_from_master Henc Hlen).
  cbn [fst snd url method data]. repeat split; reflexivity.
Qed.

Lemma GetDocument_create_request_long_key_list_witness :
  let after := GetDocumentCommand.create_request sample_ext sample_node
                 (GetDocumentCommand.init (VList [VStr long_key; VStr long_key]) VNone
                                          false false) in
  method (snd after) = VStr "POST"
  /\ data (snd after) = VList [VStr long_key]
  /\ url (snd after) = VStr "http://localhost:8080/databases/NorthWind/docs?".
Proof.
  destruct (GetDocument_create_request_long_key_list
              sample_ext sample_enc sample_node [long_key; long_key] None false false)
    as [_ [Hm [Hd Hu]]];
    [intros s flag; reflexivity | vm_compute; reflexivity |].
  cbv zeta. split; [exact Hm | split; [exact Hd | exact Hu]].
Defined.

(** C5: the keys of a list are reduced to the distinct ones in the order of
    their first occurrence, and each of them enters the url through
    [Utils.quote_key] (when the list is short enough for a GET); so does a
    single key. *)
Theorem GetDocument_create_request_keys
        ext enc server_node includes metadata_only force_read_from_master :
  quotes_with ext enc ->
  (forall keys,
      let kept := distinct_keys keys in
      let after := GetDocumentCommand.create_request ext server_node
                     (GetDocumentCommand.init (VList (map VStr keys))
                        (optional_list includes) metadata_only force_read_from_master) in
      NoDup kept
      /\ (forall k, In k kept <-> In k keys)
      /\ StronglySorted lt (map (fun k => first_index k keys) kept)
      /\ fst after = Ok tt
      /\ (total_length kept <= 1024 ->
          url (snd after) =
            VStr (database_url server_node
                    ((docs_path enc includes ++
                      if metadata_only then "&metadata-only=True" else EmptyString)
                     ++ quoted_items enc "&id=" kept)))
      /\ (total_length kept > 1024 -> data (snd after) = VList (map VStr kept)))
  /\ (forall key,
         let after := GetDocumentCommand.create_request ext server_node
                        (GetDocumentCommand.init (VStr key) (optional_list includes)
                           metadata_only force_read_from_master) in
         fst after = Ok tt
         /\ url (snd after) =
              VStr (database_url server_node
                      (docs_path enc includes ++ "&id=" ++ enc key false))).
Proof.
  intros Henc. split.
  - intros keys kept after. subst kept after.
    split; [apply distinct_keys_NoDup|].
    split; [intros k; apply distinct_keys_In|].
    split; [apply distinct_keys_first_seen|].
    destruct (Z_le_gt_dec (total_length (distinct_keys keys)) 1024) as [Hle|Hgt].
    + rewrite (GetDocument_key_list_get ext enc server_node keys includes metadata_only
                 force_read_from_master Henc Hle).
      cbn [fst snd url data]. split; [reflexivity|]. split; [reflexivity | lia].
    + rewrite (GetDocument_key_list_post ext enc server_node keys includes metadata_only
                 force_read_from_master Henc Hgt).
      cbn [fst snd url data]. split; [reflexivity|]. split; [lia | reflexivity].
  - intros key after. subst after.
    rewrite (GetDocument_single_key ext enc server_node key includes metadata_only
               force_read_from_master Henc).
    cbn [fst snd url]. split; reflexivity.
Qed.

Lemma GetDocument_create_request_keys_witness :
  url (snd (GetDocumentCommand.create_request sample_ext sample_node
              (GetDocumentCommand.init (VList [VStr "a/1"; VStr "b 2"; VStr "a/1"])
                                       VNone false false)))
  = VStr "http://localhost:8080/databases/NorthWind/docs?&id=a%2F1&id=b%202"
  /\ url (snd (GetDocumentCommand.create_request sample_ext sample_node
                 (GetDocumentCommand.init (VStr "a/1") VNone false false)))
     = VStr "http://localhost:8080/databases/NorthWind/docs?&id=a%2F1".
Proof.
  destruct (GetDocument_create_request_keys sample_ext sample_enc sample_node None
              false false) as [Hlist Hone]; [intros s flag; reflexivity|].
  split.
  - destruct (Hlist ["a/1"; "b 2"; "a/1"]) as [_ [_ [_ [_ [Hurl _]]]]].
    apply Hurl. vm_compute. discriminate.
  - destruct (Hone "a/1") as [_ Hurl]. exact Hurl.
Defined.

(** ** QueryCommand *)

Lemma pure_ret {S A} (a : A) : pure_ok (@ret S A a).
Proof. intros s. now exists a. Qed.

Lemma pure_lift {S A} (r : result A) : (exists a, r = Ok a) -> pure_ok (@lift S A r).
Proof. intros [a ->] s. now exists a. Qed.

Lemma pure_bind {S A B} (m : M S A) (k : A -> M S B) :
  pure_ok m -> (forall a, pure_ok (k a)) -> pure_ok (bind m k).
Proof.
  intros Hm Hk s. destruct (Hm s) as [a Ha]. destruct (Hk a s) as [b Hb].
  exists b. unfold bind. now rewrite Ha.
Qed.

Lemma bind_pure {S A B} (m : M S A) (k : A -> M S B) (s : S)
      (P : result B * S -> Prop) :
  pure_ok m -> (forall a, P (k a s)) -> P (bind m k s).
Proof.
  intros Hm Hk. destruct (Hm s) as [a Ha]. unfold bind. rewrite Ha. apply Hk.
Qed.

Lemma formatted_ok ext fmt (items : list string) :
  (forall x, exists r, str_format ext fmt [VStr x] [] = Ok r) ->
  exists r, QueryCommand.formatted ext fmt items = Ok r.
Proof.
  intros Hfmt. unfold QueryCommand.formatted.
  assert (H : exists parts, mapR (fun x => str_format ext fmt [VStr x] []) items = Ok parts).
  { induction items as [|x items [parts IH]]; [now exists []|].
    destruct (Hfmt x) as [r Hr]. exists (r :: parts). cbn [mapR].
    rewrite Hr. cbn [bindR]. now rewrite IH. }
  destruct H as [parts ->]. eexists; reflexivity.
Qed.

Lemma mapR_str_add (prefix : string) (items : list string) :
  mapR (str_add prefix) (map VStr items) = Ok (map (fun item => prefix ++ item) items).
Proof. induction items as [|x items IH]; cbn; [reflexivity | now rewrite IH]. Qed.

Lemma truthy_str (s : string) : s <> EmptyString -> truthy (VStr s) = true.
Proof.
  intros Hs. cbn. destruct (String.eqb_spec s EmptyString); [contradiction | reflexivity].
Qed.

(** The next statement of the body is a block that assigns nothing and does
    not raise: go on with what it returns. *)
Ltac pure_step :=
  match goal with
  | |- context [bind ?m ?k ?s] =>
      pattern (bind m k s); apply bind_pure; [| intro; cbv beta]
  end.

Ltac pure_block :=
  repeat first
    [ apply pure_ret
    | apply pure_lift; eexists; reflexivity
    | apply pure_bind; [| intro] ].

(** C3: [QueryCommand.create_request] on a command with a non-empty index
    name and an IndexQuery goes through, and it has set the method to POST
    when the query text is no longer than the threshold of the conventions;
    when the text is longer the method is the GET of the constructor. *)
Theorem QueryCommand_create_request_method
        ext enc server_node name q conv includes
        metadata_only index_entries_only force_read_from_master :
  quotes_with ext enc ->
  name <> EmptyString ->
  exists self,
    QueryCommand.init (VStr name) (VIndexQuery q) (Some conv) (optional_list includes)
                      metadata_only index_entries_only force_read_from_master = Ok self
    /\ method self = VStr "GET"
    /\ let after := QueryCommand.create_request ext server_node self in
       fst after = Ok tt
       /\ method (snd after) =
            (if Z.of_nat (String.length (query q))
                <=? QueryCommand.max_length_of_query_using_get_url conv
             then VStr "POST" else VStr "GET")
       /\ exists path, url (snd after) = VStr (database_url server_node path).
Proof.
  intros Henc Hname. eexists. split; [reflexivity|]. split; [reflexivity|].
  cbv zeta. unfold QueryCommand.create_request.
  set (self := RavenCommand_init _ _ _).
  step.
  rewrite (bind_ok (when _ _) _ self tt self)
    by (cbn [own self RavenCommand_init QueryCommand.index_name];
        now rewrite (truthy_str _ Hname)).
  step.
  cbn [own self RavenCommand_init QueryCommand.index_name QueryCommand.index_query
       QueryCommand.includes QueryCommand.metadata_only QueryCommand.index_entries_only
       QueryCommand.conventions].
  rewrite (bind_ok (lift (quote_key _ _ _)) _ _ _ _
             (f_equal (fun r => (r, _)) (Henc name true))).
  step.
  pure_step.
  { destruct (default_operator q) as [[|]|]; pure_block. }
  pure_step.
  { destruct (truthy (VStr (query q))); pure_block.
    apply pure_lift. exists (enc (query q) false). apply Henc. }
  pure_step.
  { apply pure_lift, formatted_ok. intros x. eexists; reflexivity. }
  pure_step.
  { apply pure_lift, formatted_ok. intros x. eexists; reflexivity. }
  pure_step.
  { apply pure_lift, formatted_ok. intros x. eexists; reflexivity. }
  pure_step.
  { destruct includes as [[|i items]|]; cbn [optional_list truthy map]; try apply pure_ret.
    intros s. unfold bind, lift. cbn [py_len py_iter].
    destruct (Z.of_nat (List.length (VStr i :: map VStr items)) >? 0);
      [|eexists; reflexivity].
    rewrite <- map_cons, mapR_str_add. eexists; reflexivity. }
  pure_step.
  { destruct (wait_for_non_stale_results_timeout q) as [timeout|]; [|apply pure_ret].
    destruct (truthy (VStr timeout)); pure_block. }
  step. step.
  destruct (Z.of_nat (String.length (query q))
            <=? QueryCommand.max_length_of_query_using_get_url conv);
    step; rewrite set_database_url_run; cbn; repeat split; eexists; reflexivity.
Qed.

Lemma QueryCommand_create_request_method_witness :
  exists self,
    QueryCommand.init (VStr "Users/ByName")
      (VIndexQuery {| query := "Name:John"; page_size := 128; default_operator := Some AND;
                      sort_hints := []; sort_fields := ["Name"]; fetch := [];
                      wait_for_non_stale_results_timeout := None |})
      (Some {| QueryCommand.max_length_of_query_using_get_url := 1536 |})
      VNone false false false = Ok self
    /\ method (snd (QueryCommand.create_request sample_ext sample_node self)) = VStr "POST".
Proof.
  destruct (QueryCommand_create_request_method sample_ext sample_enc sample_node
              "Users/ByName"
              {| query := "Name:John"; page_size := 128; default_operator := Some AND;
                 sort_hints := []; sort_fields := ["Name"]; fetch := [];
                 wait_for_non_stale_results_timeout := None |}
              {| QueryCommand.max_length_of_query_using_get_url := 1536 |}
              None false false false)
    as [self [Hinit [_ [_ [Hmethod _]]]]];
    [intros s flag; reflexivity | discriminate |].
  exists self. split; [exact Hinit | exact Hmethod].
Defined.

(** * Further properties of the commands *)

(** ** What create_request leaves alone *)

Section Respects.
Context {F : Type} (R : RavenCommand F -> RavenCommand F -> Prop).
Hypothesis R_refl : forall s, R s s.
Hypothesis R_trans : forall s1 s2 s3, R s1 s2 -> R s2 s3 -> R s1 s3.

Lemma respects_ret {A} (a : A) : respects R (ret a).
Proof. intros s. apply R_refl. Qed.

Lemma respects_raise {A} c arg : respects R (@raise _ A c arg).
Proof. intros s. apply R_refl. Qed.

Lemma respects_lift {A} (r : result A) : respects R (lift r).
Proof. intros s. apply R_refl. Qed.

Lemma respects_get : respects R get.
Proof. intros s. apply R_refl. Qed.

Lemma respects_bind {A B} (m : M (RavenCommand F) A) (k : A -> M (RavenCommand F) B) :
  respects R m -> (forall a, respects R (k a)) -> respects R (bind m k).
Proof.
  intros Hm Hk s. unfold bind. specialize (Hm s).
  destruct (m s) as [[a|c arg] s']; cbn [snd] in *; [|assumption].
  eapply R_trans; [exact Hm | apply Hk].
Qed.

Lemma respects_when (cond : bool) (body : M (RavenCommand F) unit) :
  respects R body -> respects R (when cond body).
Proof. intros Hb. destruct cond; [assumption | apply respects_ret]. Qed.
End Respects.

Lemma same_transport_state_refl {F} (s : RavenCommand F) : same_transport_state s s.
Proof. repeat split. Qed.

Lemma same_transport_state_trans {F} (s1 s2 s3 : RavenCommand F) :
  same_transport_state s1 s2 -> same_transport_state s2 s3 -> same_transport_state s1 s3.
Proof.
  unfold same_transport_state. intros [H1 [H2 [H3 H4]]] [H5 [H6 [H7 H8]]].
  repeat split; congruence.
Qed.

Lemma same_method_trans {F} (s1 s2 s3 : RavenCommand F) :
  same_method s1 s2 -> same_method s2 s3 -> same_method s1 s3.
Proof. unfold same_method. congruence. Qed.

(** The assignments: each of them leaves the transport's attributes alone,
    and all but [self.method = v] leave the method alone. *)
Ltac by_assignment := intros s; cbn; repeat split; reflexivity.

Lemma transport_set_url {F} v : respects same_transport_state (@set_url F v).
Proof. by_assignment. Qed.
Lemma transport_set_method {F} v : respects same_transport_state (@set_method F v).
Proof. by_assignment. Qed.
Lemma transport_set_data {F} v : respects same_transport_state (@set_data F v).
Proof. by_assignment. Qed.
Lemma transport_set_headers {F} v : respects same_transport_state (@set_headers F v).
Proof. by_assignment. Qed.
Lemma transport_set_own {F} f : respects same_transport_state (@set_own F f).
Proof. by_assignment. Qed.
Lemma method_set_url {F} v : respects same_method (@set_url F v).
Proof. by_assignment. Qed.
Lemma method_set_data {F} v : respects same_method (@set_data F v).
Proof. by_assignment. Qed.
Lemma method_set_headers {F} v : respects same_method (@set_headers F v).
Proof. by_assignment. Qed.
Lemma method_set_own {F} f : respects same_method (@set_own F f).
Proof. by_assignment. Qed.

Create HintDb respects.
#[local] Hint Resolve transport_set_url transport_set_method transport_set_data
  transport_set_headers transport_set_own method_set_url method_set_data
  method_set_headers method_set_own : respects.

Ltac respects_case :=
  match goal with
  | |- respects _ (if ?c then _ else _) => destruct c
  | |- respects _ (match ?x with _ => _ end) => destruct x
  end.

Ltac respects_with refl trans :=
  unfold set_database_url;
  repeat first
    [ solve [apply respects_ret; refl]
    | solve [apply respects_raise; refl]
    | solve [apply respects_lift; refl]
    | solve [apply respects_get; refl]
    | solve [auto with respects]
    | apply respects_when; [solve [refl] |]
    | apply respects_bind; [solve [trans] | | intro]
    | respects_case ].

Ltac transport :=
  respects_with ltac:(exact same_transport_state_refl)
                ltac:(exact same_transport_state_trans).
Ltac unchanged_method :=
  respects_with ltac:(intro; reflexivity) ltac:(exact same_method_trans).

(** [create_request] never touches the attributes the transport owns
    ([is_read_request], [failed_nodes], [authentication_retries],
    [avoid_failover]), in none of the commands, whether it raises or not: a
    query that has switched to POST is still a read request. *)
Theorem create_request_keeps_transport_state ext utils server_node :
  respects same_transport_state (GetDocumentCommand.create_request ext server_node)
  /\ respects same_transport_state (DeleteDocumentCommand.create_request ext server_node)
  /\ respects same_transport_state (PutDocumentCommand.create_request ext server_node)
  /\ respects same_transport_state (BatchCommand.create_request ext server_node)
  /\ respects same_transport_state (PutIndexesCommand.create_request ext server_node)
  /\ respects same_transport_state (GetIndexCommand.create_request ext server_node)
  /\ respects same_transport_state (DeleteIndexCommand.create_request ext server_node)
  /\ respects same_transport_state (PatchByIndexCommand.create_request ext utils server_node)
  /\ respects same_transport_state (PatchCommand.create_request ext server_node)
  /\ respects same_transport_state (QueryCommand.create_request ext server_node)
  /\ respects same_transport_state (CreateDatabaseCommand.create_request ext utils server_node)
  /\ respects same_transport_state (DeleteDatabaseCommand.create_request ext server_node).
Proof.
  repeat match goal with |- _ /\ _ => split end.
  - unfold GetDocumentCommand.create_request. transport.
  - unfold DeleteDocumentCommand.create_request. transport.
  - unfold PutDocumentCommand.create_request. transport.
  - unfold BatchCommand.create_request. transport.
  - unfold PutIndexesCommand.create_request. transport.
  - unfold GetIndexCommand.create_request. transport.
  - unfold DeleteIndexCommand.create_request. transport.
  - unfold PatchByIndexCommand.create_request. transport.
  - unfold PatchCommand.create_request. transport.
  - unfold QueryCommand.create_request. transport.
  - unfold CreateDatabaseCommand.create_request. transport.
  - unfold DeleteDatabaseCommand.create_request. transport.
Qed.

(** Only GetDocumentCommand and QueryCommand ever assign [self.method]: the
    [create_request] of every other command leaves the verb of the
    constructor in place, whether it raises or not. *)
Theorem create_request_keeps_method ext utils server_node :
  respects same_method (DeleteDocumentCommand.create_request ext server_node)
  /\ respects same_method (PutDocumentCommand.create_request ext server_node)
  /\ respects same_method (BatchCommand.create_request ext server_node)
  /\ respects same_method (PutIndexesCommand.create_request ext server_node)
  /\ respects same_method (GetIndexCommand.create_request ext server_node)
  /\ respects same_method (DeleteIndexCommand.create_request ext server_node)
  /\ respects same_method (PatchByIndexCommand.create_request ext utils server_node)
  /\ respects same_method (PatchCommand.create_request ext server_node)
  /\ respects same_method (CreateDatabaseCommand.create_request ext utils server_node)
  /\ respects same_method (DeleteDatabaseCommand.create_request ext server_node).
Proof.
  repeat match goal with |- _ /\ _ => split end.
  - unfold DeleteDocumentCommand.create_request. unchanged_method.
  - unfold PutDocumentCommand.create_request. unchanged_method.
  - unfold BatchCommand.create_request. unchanged_method.
  - unfold PutIndexesCommand.create_request. unchanged_method.
  - unfold GetIndexCommand.create_request. unchanged_method.
  - unfold DeleteIndexCommand.create_request. unchanged_method.
  - unfold PatchByIndexCommand.create_request. unchanged_method.
  - unfold PatchCommand.create_request. unchanged_method.
  - unfold CreateDatabaseCommand.create_request. unchanged_method.
  - unfold DeleteDatabaseCommand.create_request. unchanged_method.
Qed.

(** ** DeleteDocumentCommand *)

(** A key that is None or not a str makes [create_request] raise a
    ValueError with the command exactly as it was. *)
Theorem DeleteDocument_create_request_bad_key ext server_node
        (self : DeleteDocumentCommand.t) :
  isinstance_str (DeleteDocumentCommand.key (own self)) = false ->
  exists msg,
    DeleteDocumentCommand.create_request ext server_node self
    = (Raise ValueError (VStr msg), self).
Proof.
  intros Hkey. unfold DeleteDocumentCommand.create_request, bind, get, when.
  destruct (DeleteDocumentCommand.key (own self)); try discriminate Hkey;
    cbn; eexists; reflexivity.
Qed.

Lemma DeleteDocument_create_request_bad_key_witness :
  exists msg,
    DeleteDocumentCommand.create_request sample_ext sample_node
      (DeleteDocumentCommand.init (VInt 7) VNone)
    = (Raise ValueError (VStr msg), DeleteDocumentCommand.init (VInt 7) VNone).
Proof.
  apply (DeleteDocument_create_request_bad_key sample_ext sample_node). reflexivity.
Defined.

(** With a str key, [create_request] goes through: the url carries the
    quoted key, the verb and the body are those of the constructor, and the
    headers are replaced by the single If-Match header with the etag between
    double quotes when an etag was given. *)
Theorem DeleteDocument_create_request_request ext enc server_node key etag :
  quotes_with ext enc ->
  let after := DeleteDocumentCommand.create_request ext server_node
                 (DeleteDocumentCommand.init (VStr key) etag) in
  fst after = Ok tt
  /\ url (snd after) = VStr (database_url server_node ("docs?id=" ++ enc key false))
  /\ headers (snd after) =
       (if is_None etag then VDict []
        else VDict [("If-Match", VStr (dquote ++ py_str ext etag ++ dquote))])
  /\ method (snd after) = VStr "DELETE"
  /\ data (snd after) = VNone.
Proof.
  intros Henc after. subst after. unfold DeleteDocumentCommand.create_request.
  set (self := DeleteDocumentCommand.init _ _).
  step. step. step.
  cbn [own self DeleteDocumentCommand.init RavenCommand_init DeleteDocumentCommand.key
       DeleteDocumentCommand.etag].
  destruct (is_None etag) eqn:Hetag; cbn [negb];
    repeat step;
    cbn [own self DeleteDocumentCommand.init RavenCommand_init DeleteDocumentCommand.key];
    rewrite (bind_ok (lift (quote_key _ _ _)) _ _ _ _
               (f_equal (fun r => (r, _)) (Henc key false)));
    repeat step; cbn; unfold database_url; rewrite ?append_nil_r;
    repeat split; reflexivity.
Qed.

Lemma DeleteDocument_create_request_request_witness :
  let after := DeleteDocumentCommand.create_request sample_ext sample_node
                 (DeleteDocumentCommand.init (VStr "docs/1") (VInt 7)) in
  url (snd after) = VStr "http://localhost:8080/databases/NorthWind/docs?id=docs%2F1"
  /\ headers (snd after) = VDict [("If-Match", VStr (dquote ++ "7" ++ dquote))].
Proof.
  destruct (DeleteDocument_create_request_request sample_ext sample_enc sample_node
              "docs/1" (VInt 7)) as [_ [Hurl [Hheaders _]]];
    [intros s flag; reflexivity|].
  cbv zeta. split; [exact Hurl | exact Hheaders].
Defined.

(** [set_response] on a response: status 204 gives None, and any other
    status never returns: it raises, ErrorResponseException with the "Error"
    of the body when the body is a JSON object that has one. *)
Theorem DeleteDocument_set_response_status ext self (r : Response.t) :
  (Response.status_code r = 204 ->
   DeleteDocumentCommand.set_response ext self (Some r) = Ok VNone)
  /\ (Response.status_code r <> 204 ->
      exists c arg, DeleteDocumentCommand.set_response ext self (Some r) = Raise c arg)
  /\ (forall d e, Response.status_code r <> 204 ->
                  Response.body r = Some (VDict d) -> assoc "Error" d = Some e ->
                  DeleteDocumentCommand.set_response ext self (Some r)
                  = Raise ErrorResponseException e).
Proof.
  unfold DeleteDocumentCommand.set_response. repeat split.
  - intros ->. reflexivity.
  - intros Hs. destruct (Z.eqb_spec (Response.status_code r) 204); [contradiction|].
    cbn [negb]. destruct (Response.json r) as [j|c arg]; cbn [bindR].
    + destruct (getitem_str j "Error") as [e|c arg]; cbn [bindR]; eauto.
    + eauto.
  - intros d e Hs Hb He. destruct (Z.eqb_spec (Response.status_code r) 204); [contradiction|].
    cbn [negb]. unfold Response.json. rewrite Hb. cbn. now rewrite He.
Qed.

Lemma DeleteDocument_set_response_status_witness :
  DeleteDocumentCommand.set_response sample_ext
    (DeleteDocumentCommand.init (VStr "docs/1") VNone)
    (Some {| Response.status_code := 200;
             Response.body := Some (VDict [("Error", VStr "locked")]) |})
  = Raise ErrorResponseException (VStr "locked").
Proof.
  eapply (DeleteDocument_set_response_status sample_ext _ _);
    [discriminate | reflexivity | reflexivity].
Defined.

(** ** PutDocumentCommand *)

(** Without an etag, a str key and a document that is a dict or None give
    the request: the key enters the url as it is (it does not go through
    [Utils.quote_key]), the body is the document, the empty dict standing in
    for None. *)
Theorem PutDocument_create_request_request ext server_node key
        (document : option (list (string * pyval))) :
  let after := PutDocumentCommand.create_request ext server_node
                 (PutDocumentCommand.init
                    (VStr key)
                    (match document with Some d => VDict d | None => VNone end) VNone) in
  fst after = Ok tt
  /\ url (snd after) = VStr (database_url server_node ("docs?id=" ++ key))
  /\ data (snd after) = VDict (match document with Some d => d | None => [] end)
  /\ method (snd after) = VStr "PUT"
  /\ headers (snd after) = VDict [].
Proof.
  destruct document as [d|]; cbn; unfold database_url; rewrite append_nil_r;
    repeat split; reflexivity.
Qed.

(** Without an etag, a key that is not a str, or a document that is neither
    None nor a dict, makes [create_request] raise a ValueError; url and body
    stay unset, but a None document has already been replaced by the empty
    dict. *)
Theorem PutDocument_create_request_rejects ext server_node key document :
  isinstance_str key = false
  \/ (is_None document = false /\ isinstance_dict document = false) ->
  let after := PutDocumentCommand.create_request ext server_node
                 (PutDocumentCommand.init key document VNone) in
  raises (fst after) ValueError
  /\ url (snd after) = VNone /\ data (snd after) = VNone
  /\ (is_None document = true ->
      PutDocumentCommand.document (own (snd after)) = VDict []).
Proof.
  intros H after. subst after.
  unfold PutDocumentCommand.create_request, PutDocumentCommand.init, bind, get, when.
  destruct H as [Hkey|[Hnone Hdict]].
  - destruct key; try discriminate Hkey; destruct document; cbn;
      repeat split; try reflexivity; try discriminate; eexists; reflexivity.
  - destruct document; try discriminate Hnone; try discriminate Hdict;
      destruct key; cbn; repeat split; try reflexivity; try discriminate;
      eexists; reflexivity.
Qed.

Lemma PutDocument_create_request_rejects_witness :
  let after := PutDocumentCommand.create_request sample_ext sample_node
                 (PutDocumentCommand.init (VInt 1) VNone VNone) in
  raises (fst after) ValueError
  /\ PutDocumentCommand.document (own (snd after)) = VDict [].
Proof.
  destruct (PutDocument_create_request_rejects sample_ext sample_node (VInt 1) VNone)
    as [Hr [_ [_ Hdoc]]]; [left; reflexivity|].
  cbv zeta. split; [exact Hr | apply Hdoc; reflexivity].
Defined.

(** [set_response]: a body that is a JSON object without "Error" is
    returned as it is; a body that is not JSON gives ErrorResponseException;
    a None response is not caught by the [except] clause and surfaces as
    AttributeError. *)
Theorem PutDocument_set_response_outcomes ext self :
  (forall r d, Response.body r = Some (VDict d) -> has_key "Error" d = false ->
               PutDocumentCommand.set_response ext self (Some r) = Ok (VDict d))
  /\ (forall r, Response.body r = None ->
                raises (PutDocumentCommand.set_response ext self (Some r))
                       ErrorResponseException)
  /\ raises (PutDocumentCommand.set_response ext self None) AttributeError.
Proof.
  unfold PutDocumentCommand.set_response, response_json, Response.json. repeat split.
  - intros r d Hb He. rewrite Hb. cbn. now rewrite He.
  - intros r Hb. rewrite Hb. cbn. eexists; reflexivity.
  - eexists; reflexivity.
Qed.

Lemma PutDocument_set_response_outcomes_witness :
  PutDocumentCommand.set_response sample_ext
    (PutDocumentCommand.init (VStr "docs/1") VNone VNone)
    (Some {| Response.status_code := 201;
             Response.body := Some (VDict [("Key", VStr "docs/1")]) |})
  = Ok (VDict [("Key", VStr "docs/1")]).
Proof.
  eapply (PutDocument_set_response_outcomes sample_ext _); reflexivity.
Defined.

(** Building the request again, as the transport does when it moves to
    another node, gives what the other node would have got at once: nothing
    of the first request is left, whatever the command holds and whether the
    calls raise or not. *)
Theorem PutDocument_create_request_again ext node1 node2 (self : PutDocumentCommand.t) :
  PutDocumentCommand.create_request ext node2
    (snd (PutDocumentCommand.create_request ext node1 self))
  = PutDocumentCommand.create_request ext node2 self.
Proof.
  destruct self as [u m d h r f a av [key document etag]].
  unfold PutDocumentCommand.create_request, bind, get, when.
  destruct document, etag, key; reflexivity.
Qed.

(** ** GetDocumentCommand *)

(** [set_response] on a response: a JSON object without "Error" is returned
    as it is; an object with "Error" and a body that is not JSON both give
    ErrorResponseException, whatever the exception classes derive from. *)
Theorem GetDocument_set_response_outcomes ext self (r : Response.t) :
  (forall d, Response.body r = Some (VDict d) -> has_key "Error" d = false ->
             GetDocumentCommand.set_response ext self (Some r) = Ok (VDict d))
  /\ (forall d, Response.body r = Some (VDict d) -> has_key "Error" d = true ->
                raises (GetDocumentCommand.set_response ext self (Some r))
                       ErrorResponseException)
  /\ (Response.body r = None ->
      raises (GetDocumentCommand.set_response ext self (Some r)) ErrorResponseException).
Proof.
  unfold GetDocumentCommand.set_response, Response.json. repeat split.
  - intros d Hb He. rewrite Hb. cbn. now rewrite He.
  - intros d Hb He. rewrite Hb. cbn. rewrite He. cbn.
    unfold has_key in He. destruct (assoc "Error" d) as [e|]; [|discriminate].
    cbn. destruct (derives_ValueError ext ErrorResponseException); eexists; reflexivity.
  - intros Hb. rewrite Hb. cbn. eexists; reflexivity.
Qed.

Lemma GetDocument_set_response_outcomes_witness :
  raises (GetDocumentCommand.set_response sample_ext
            (GetDocumentCommand.init (VStr "docs/1") VNone false false)
            (Some {| Response.status_code := 500;
                     Response.body := Some (VDict [("Error", VStr "boom")]) |}))
         ErrorResponseException.
Proof.
  destruct (GetDocument_set_response_outcomes sample_ext
              (GetDocumentCommand.init (VStr "docs/1") VNone false false)
              {| Response.status_code := 500;
                 Response.body := Some (VDict [("Error", VStr "boom")]) |})
    as [_ [H _]].
  apply (H [("Error", VStr "boom")]); reflexivity.
Defined.

(** For a single key (anything but a list) [metadata_only] plays no part:
    the outcome, the url, the verb and the body are the same with and
    without it.  The flag is read in the branch of the key lists only. *)
Theorem GetDocument_single_key_ignores_metadata_only
        ext server_node key includes force_read_from_master :
  isinstance_list key = false ->
  let with_flag := GetDocumentCommand.create_request ext server_node
                     (GetDocumentCommand.init key includes true force_read_from_master) in
  let without := GetDocumentCommand.create_request ext server_node
                   (GetDocumentCommand.init key includes false force_read_from_master) in
  fst with_flag = fst without
  /\ url (snd with_flag) = url (snd without)
  /\ method (snd with_flag) = method (snd without)
  /\ data (snd with_flag) = data (snd without).
Proof.
  intros Hkey with_flag without. subst with_flag without.
  unfold GetDocumentCommand.create_request, GetDocumentCommand.init, set_database_url,
    bind, get, when, lift, ret, raise.
  destruct key; try discriminate Hkey; cbn;
    destruct (truthy includes); cbn;
    repeat match goal with
           | |- context [match ?x with Ok _ => _ | Raise _ _ => _ end] =>
               destruct x; cbn
           end;
    repeat split; reflexivity.
Qed.

Lemma GetDocument_single_key_ignores_metadata_only_witness :
  url (snd (GetDocumentCommand.create_request sample_ext sample_node
              (GetDocumentCommand.init (VStr "docs/1") VNone true false)))
  = url (snd (GetDocumentCommand.create_request sample_ext sample_node
                (GetDocumentCommand.init (VStr "docs/1") VNone false false))).
Proof.
  apply (GetDocument_single_key_ignores_metadata_only sample_ext sample_node
           (VStr "docs/1") VNone false eq_refl).
Defined.

(** A key list with an element that is not a str never becomes a request. *)








(** ** BatchCommand *)

(** [set_response]: the "Results" of a JSON object without "Error" are
    returned; an object with "Error" and a body that is not JSON give
    InvalidOperationException; an object with neither "Error" nor "Results"
    raises a KeyError, which the [except ValueError] clause lets through. *)
Theorem BatchCommand_set_response_outcomes ext self (r : Response.t) :
  (forall d results, Response.body r = Some (VDict d) -> has_key "Error" d = false ->
                     assoc "Results" d = Some results ->
                     BatchCommand.set_response ext self (Some r) = Ok results)
  /\ (forall d, Response.body r = Some (VDict d) -> has_key "Error" d = true ->
                raises (BatchCommand.set_response ext self (Some r))
                       InvalidOperationException)
  /\ (Response.body r = None ->
      raises (BatchCommand.set_response ext self (Some r)) InvalidOperationException)
  /\ (forall d, Response.body r = Some (VDict d) -> has_key "Error" d = false ->
                assoc "Results" d = None ->
                BatchCommand.set_response ext self (Some r)
                = Raise KeyError (VStr "Results")).
Proof.
  unfold BatchCommand.set_response, response_json, Response.json. repeat split.
  - intros d results Hb He Hr. rewrite Hb. cbn. rewrite He. cbn. now rewrite Hr.
  - intros d Hb He. rewrite Hb. cbn. rewrite He. cbn.
    unfold has_key in He. destruct (assoc "Error" d) as [e|]; [|discriminate].
    cbn. eexists; reflexivity.
  - intros Hb. rewrite Hb. cbn. eexists; reflexivity.
  - intros d Hb He Hr. rewrite Hb. cbn. rewrite He. cbn. now rewrite Hr.
Qed.

Lemma BatchCommand_set_response_outcomes_witness :
  BatchCommand.set_response sample_ext (BatchCommand.init [])
    (Some {| Response.status_code := 200;
             Response.body := Some (VDict [("Results", VList [VDict []])]) |})
  = Ok (VList [VDict []])
  /\ BatchCommand.set_response sample_ext (BatchCommand.init [])
       (Some {| Response.status_code := 200; Response.body := Some (VDict []) |})
     = Raise KeyError (VStr "Results").
Proof.
  split.
  - destruct (BatchCommand_set_response_outcomes sample_ext (BatchCommand.init [])
                {| Response.status_code := 200;
                   Response.body := Some (VDict [("Results", VList [VDict []])]) |})
      as [H _].
    apply (H [("Results", VList [VDict []])]); reflexivity.
  - destruct (BatchCommand_set_response_outcomes sample_ext (BatchCommand.init [])
                {| Response.status_code := 200; Response.body := Some (VDict []) |})
      as [_ [_ [_ H]]].
    apply (H []); reflexivity.
Defined.

Lemma mapR_app_raise {A B} (f : A -> result B) (pre : list A) (bad : A) (post : list A)
      (ys : list B) c arg :
  mapR f pre = Ok ys -> f bad = Raise c arg ->
  mapR f (pre ++ bad :: post) = Raise c arg.
Proof.
  revert ys. induction pre as [|x pre IH]; intros ys Hpre Hbad; cbn [app mapR].
  - now rewrite Hbad.
  - cbn [mapR] in Hpre. destruct (f x) as [y|c' arg']; cbn [bindR] in *; [|discriminate].
    destruct (mapR f pre) as [ys'|c' arg'] eqn:Hm; cbn [bindR] in *; [|discriminate].
    now rewrite (IH ys' eq_refl Hbad).
Qed.

(** A sub-command without a [command] attribute, wherever it stands after
    sub-commands that serialize, makes [create_request] raise the ValueError
    "Not a valid command" with the command exactly as it was: no part of the
    batch becomes a body. *)
Theorem BatchCommand_create_request_invalid_command
        ext server_node (pre : list pyval) (bad : pyval) (post jsons : list pyval) :
  mapR BatchCommand.serialize pre = Ok jsons ->
  hasattr bad "command" = false ->
  BatchCommand.create_request ext server_node (BatchCommand.init (pre ++ bad :: post))
  = (Raise ValueError (VStr "Not a valid command"),
     BatchCommand.init (pre ++ bad :: post)).
Proof.
  intros Hpre Hbad. unfold BatchCommand.create_request.
  set (self := BatchCommand.init _).
  step. cbn [own self BatchCommand.init RavenCommand_init BatchCommand.commands_array].
  assert (H : mapR BatchCommand.serialize (pre ++ bad :: post)
              = Raise ValueError (VStr "Not a valid command")).
  { apply (mapR_app_raise _ _ _ _ jsons); [assumption|].
    unfold BatchCommand.serialize. now rewrite Hbad. }
  now rewrite (bind_raise (lift (mapR _ _)) _ _ _ _ _ (f_equal (fun r => (r, _)) H)).
Qed.

Lemma BatchCommand_create_request_invalid_command_witness :
  fst (BatchCommand.create_request sample_ext sample_node
         (BatchCommand.init
            [VObject "PutCommandData" [("command", VBool true)]
                     [("to_json", VDict [("Method", VStr "PUT")])];
             VStr "docs/1"]))
  = Raise ValueError (VStr "Not a valid command").
Proof.
  exact (f_equal fst
           (BatchCommand_create_request_invalid_command sample_ext sample_node
              [VObject "PutCommandData" [("command", VBool true)]
                       [("to_json", VDict [("Method", VStr "PUT")])]]
              (VStr "docs/1") [] [VDict [("Method", VStr "PUT")]] eq_refl eq_refl)).
Defined.

(** ** PutIndexesCommand *)

(** The constructor followed by [create_request]: index definitions whose
    names are not None give a PUT to the [indexes] path whose body is the
    list of their JSON, in the order of the arguments; [create_request]
    itself has nothing to check. *)
Theorem PutIndexes_init_then_create_request ext server_node (defs : list (pyval * pyval)) :
  Forall (fun d => fst d <> VNone) defs ->
  exists self,
    PutIndexesCommand.init (map (fun d => VIndexDefinition (fst d) (snd d)) defs) = Ok self
    /\ let after := PutIndexesCommand.create_request ext server_node self in
       fst after = Ok tt
       /\ url (snd after) = VStr (database_url server_node "indexes")
       /\ data (snd after) = VList (map snd defs)
       /\ method (snd after) = VStr "PUT".
Proof.
  intros Hall. eexists. split; [apply PutIndexesCommand_init_named; assumption|].
  cbn. repeat split; reflexivity.
Qed.

Lemma PutIndexes_init_then_create_request_witness :
  exists self,
    PutIndexesCommand.init [VIndexDefinition (VStr "Users/ByName")
                                             (VDict [("Name", VStr "Users/ByName")])]
    = Ok self
    /\ data (snd (PutIndexesCommand.create_request sample_ext sample_node self))
       = VList [VDict [("Name", VStr "Users/ByName")]].
Proof.
  destruct (PutIndexes_init_then_create_request sample_ext sample_node
              [(VStr "Users/ByName", VDict [("Name", VStr "Users/ByName")])])
    as [self [Hinit [_ [_ [Hdata _]]]]].
  - repeat constructor. discriminate.
  - exists self. split; [exact Hinit | exact Hdata].
Defined.

(** An argument that is not an IndexDefinition makes the constructor raise
    a ValueError, wherever it stands among the arguments. *)
Theorem PutIndexes_init_not_index_definition (args : list pyval) (bad : pyval) :
  In bad args -> isinstance_IndexDefinition bad = false ->
  raises (PutIndexesCommand.init args) ValueError.
Proof.
  intros Hin Hbad. unfold PutIndexesCommand.init.
  assert (H : raises (mapR PutIndexesCommand.checked_json args) ValueError).
  { induction args as [|d args IH]; [contradiction|].
    cbn [mapR]. destruct (checked_json_outcome d) as [[j Hj]|[arg Hr]].
    - rewrite Hj. cbn [bindR]. destruct Hin as [->|Hin].
      + unfold PutIndexesCommand.checked_json in Hj. rewrite Hbad in Hj. discriminate Hj.
      + destruct (IH Hin) as [arg Hr]. rewrite Hr. now exists arg.
    - rewrite Hr. now exists arg. }
  destruct H as [arg H]. rewrite H. now exists arg.
Qed.

Lemma PutIndexes_init_not_index_definition_witness :
  raises (PutIndexesCommand.init
            [VIndexDefinition (VStr "Users/ByName") (VDict []); VStr "Users/ByAge"])
         ValueError.
Proof.
  apply (PutIndexes_init_not_index_definition _ (VStr "Users/ByAge")).
  - right. left. reflexivity.
  - reflexivity.
Defined.

(** ** GetIndexCommand and DeleteIndexCommand *)

(** GetIndexCommand: an index name that is None or empty gives the url of
    all the indexes, [Utils.quote_key] not being called at all; a non-empty
    str gives the [name=] parameter with the quoted name.  Nothing is
    checked, nothing raises. *)
Theorem GetIndex_create_request_url ext server_node force_read_from_master :
  (forall index_name,
      truthy index_name = false ->
      let after := GetIndexCommand.create_request ext server_node
                     (GetIndexCommand.init index_name force_read_from_master) in
      fst after = Ok tt
      /\ url (snd after) = VStr (database_url server_node "indexes?"))
  /\ (forall enc name,
         quotes_with ext enc -> name <> EmptyString ->
         let after := GetIndexCommand.create_request ext server_node
                        (GetIndexCommand.init (VStr name) force_read_from_master) in
         fst after = Ok tt
         /\ url (snd after) =
              VStr (database_url server_node ("indexes?name=" ++ enc name true))).
Proof.
  split.
  - intros index_name Hname after. subst after.
    unfold GetIndexCommand.create_request, GetIndexCommand.init, bind, get, lift, ret.
    cbn. rewrite Hname. cbn. split; reflexivity.
  - intros enc name Henc Hname after. subst after.
    unfold GetIndexCommand.create_request, GetIndexCommand.init, bind, get, lift, ret.
    cbn [own RavenCommand_init GetIndexCommand.index_name].
    rewrite (truthy_str _ Hname), Henc. cbn. unfold database_url.
    rewrite !append_nil_r. split; reflexivity.
Qed.

Lemma GetIndex_create_request_url_witness :
  url (snd (GetIndexCommand.create_request sample_ext sample_node
              (GetIndexCommand.init VNone false)))
  = VStr "http://localhost:8080/databases/NorthWind/indexes?"
  /\ url (snd (GetIndexCommand.create_request sample_ext sample_node
                 (GetIndexCommand.init (VStr "Users/ByName") false)))
     = VStr "http://localhost:8080/databases/NorthWind/indexes?name=Users%2FByName".
Proof.
  destruct (GetIndex_create_request_url sample_ext sample_node false) as [Hall Hone].
  split.
  - apply (Hall VNone). reflexivity.
  - apply (Hone sample_enc "Users/ByName"); [intros s flag; reflexivity | discriminate].
Defined.

(** DeleteIndexCommand, unlike GetIndexCommand, refuses an index name that
    is None or empty: [create_request] raises a ValueError with the command
    as it was; a non-empty str gives the url with the quoted name. *)
Theorem DeleteIndex_create_request_name ext server_node :
  (forall self,
      truthy (DeleteIndexCommand.index_name (own self)) = false ->
      DeleteIndexCommand.create_request ext server_node self
      = (Raise ValueError (VStr "None or empty index_name is invalid"), self))
  /\ (forall enc name,
         quotes_with ext enc -> name <> EmptyString ->
         let after := DeleteIndexCommand.create_request ext server_node
                        (DeleteIndexCommand.init (VStr name)) in
         fst after = Ok tt
         /\ url (snd after) =
              VStr (database_url server_node ("indexes?name=" ++ enc name true))).
Proof.
  split.
  - intros self Hname.
    unfold DeleteIndexCommand.create_request, bind, get, when. cbn. now rewrite Hname.
  - intros enc name Henc Hname after. subst after.
    unfold DeleteIndexCommand.create_request, DeleteIndexCommand.init, bind, get, when,
      lift.
    cbn [own RavenCommand_init DeleteIndexCommand.index_name].
    rewrite (truthy_str _ Hname), Henc. cbn. unfold database_url.
    rewrite !append_nil_r. split; reflexivity.
Qed.

Lemma DeleteIndex_create_request_name_witness :
  fst (DeleteIndexCommand.create_request sample_ext sample_node
         (DeleteIndexCommand.init (VStr EmptyString)))
  = Raise ValueError (VStr "None or empty index_name is invalid")
  /\ url (snd (DeleteIndexCommand.create_request sample_ext sample_node
                 (DeleteIndexCommand.init (VStr "Users/ByName"))))
     = VStr "http://localhost:8080/databases/NorthWind/indexes?name=Users%2FByName".
Proof.
  destruct (DeleteIndex_create_request_name sample_ext sample_node) as [Hbad Hone].
  split.
  - rewrite (Hbad (DeleteIndexCommand.init (VStr EmptyString)) eq_refl). reflexivity.
  - apply (Hone sample_enc "Users/ByName"); [intros s flag; reflexivity | discriminate].
Defined.

(** ** PatchCommand *)

(** With a PatchRequest, no etag and a fallback that is None or a
    PatchRequest with a non-empty script, [create_request] goes through: the
    url carries the quoted key and the two flags, and the body holds the
    JSON of the patch and that of the fallback, None when there is none. *)
Theorem PatchCommand_create_request_request
        ext enc server_node key script patch_json
        (fallback : option (pyval * pyval)) skip debug :
  quotes_with ext enc ->
  (forall f, fallback = Some f -> truthy (fst f) = true) ->
  let patch_if_missing :=
    match fallback with Some f => VPatchRequest (fst f) (snd f) | None => VNone end in
  let after := PatchCommand.create_request ext server_node
                 (PatchCommand.init (VStr key) (VPatchRequest script patch_json) VNone
                                    patch_if_missing skip debug) in
  fst after = Ok tt
  /\ url (snd after) =
       VStr (database_url server_node
               (("docs?id=" ++ enc key false)
                ++ (if skip then "&skipPatchIfEtagMismatch=true" else EmptyString)
                ++ (if debug then "&debug=true" else EmptyString)))
  /\ data (snd after) =
       VDict [("Patch", patch_json);
              ("PatchIfMissing", match fallback with Some f => snd f | None => VNone end)]
  /\ headers (snd after) = VDict [].
Proof.
  intros Henc Hscript patch_if_missing after. subst after patch_if_missing.
  unfold PatchCommand.create_request, PatchCommand.init, set_database_url,
    bind, get, when, lift, ret, raise.
  cbn [own RavenCommand_init PatchCommand.key PatchCommand.patch PatchCommand.etag
       PatchCommand.patch_if_missing PatchCommand.skip_patch_if_etag_mismatch
       PatchCommand.return_debug_information is_None negb].
  rewrite Henc. destruct fallback as [[fscript fjson]|].
  - specialize (Hscript _ eq_refl). cbn [fst snd] in *. cbn. rewrite Hscript. cbn.
    unfold database_url.
    destruct skip, debug; cbn; rewrite ?append_nil_r, ?append_assoc;
      repeat split; reflexivity.
  - cbn. unfold database_url.
    destruct skip, debug; cbn; rewrite ?append_nil_r, ?append_assoc;
      repeat split; reflexivity.
Qed.

Lemma PatchCommand_create_request_request_witness :
  data (snd (PatchCommand.create_request sample_ext sample_node
               (PatchCommand.init (VStr "docs/1")
                  (VPatchRequest (VStr "this.Age++") (VDict [("Script", VStr "this.Age++")]))
                  VNone VNone false true)))
  = VDict [("Patch", VDict [("Script", VStr "this.Age++")]); ("PatchIfMissing", VNone)].
Proof.
  apply (PatchCommand_create_request_request sample_ext sample_enc sample_node "docs/1"
           (VStr "this.Age++") (VDict [("Script", VStr "this.Age++")]) None false true).
  - intros s flag. reflexivity.
  - intros f Hf. discriminate Hf.
Defined.

(** An etag makes a PatchCommand unusable: with a key and a patch that pass
    the checks, [create_request] raises KeyError at the If-Match header (the
    keyword field [{etag}] again) for every etag other than None, and the
    command is exactly as it was. *)
Theorem PatchCommand_create_request_etag_raises
        ext enc server_node key patch etag skip debug :
  quotes_with ext enc ->
  patch <> VNone -> etag <> VNone ->
  let self := PatchCommand.init (VStr key) patch etag VNone skip debug in
  PatchCommand.create_request ext server_node self = (Raise KeyError (VStr "etag"), self).
Proof.
  intros Henc Hpatch Hetag self. subst self.
  unfold PatchCommand.create_request, PatchCommand.init, bind, get, when, lift, ret, raise.
  cbn [own RavenCommand_init PatchCommand.key PatchCommand.patch PatchCommand.etag
       PatchCommand.patch_if_missing PatchCommand.skip_patch_if_etag_mismatch
       PatchCommand.return_debug_information is_None negb truthy].
  rewrite (is_None_false _ Hpatch), (is_None_false _ Hetag), Henc. reflexivity.
Qed.

Lemma PatchCommand_create_request_etag_raises_witness :
  fst (PatchCommand.create_request sample_ext sample_node
         (PatchCommand.init (VStr "docs/1")
            (VPatchRequest (VStr "this.Age++") (VDict [])) (VStr "3") VNone false false))
  = Raise KeyError (VStr "etag").
Proof.
  exact (f_equal fst
           (PatchCommand_create_request_etag_raises sample_ext sample_enc sample_node
              "docs/1" (VPatchRequest (VStr "this.Age++") (VDict [])) (VStr "3")
              false false (fun s flag => eq_refl)
              ltac:(discriminate) ltac:(discriminate))).
Defined.

(** A fallback patch whose script is None or empty is refused before
    anything is built: [create_request] raises a ValueError with the command
    exactly as it was. *)
Theorem PatchCommand_create_request_empty_fallback_script
        ext server_node (self : PatchCommand.t) script fallback_json :
  is_None (PatchCommand.key (own self)) = false ->
  is_None (PatchCommand.patch (own self)) = false ->
  PatchCommand.patch_if_missing (own self) = VPatchRequest script fallback_json ->
  truthy script = false ->
  PatchCommand.create_request ext server_node self
  = (Raise ValueError (VStr "None or Empty script is invalid"), self).
Proof.
  intros Hkey Hpatch Hpim Hscript.
  unfold PatchCommand.create_request, bind, get, when, lift, ret, raise.
  rewrite Hkey, Hpatch, Hpim. cbn. rewrite Hscript. reflexivity.
Qed.

Lemma PatchCommand_create_request_empty_fallback_script_witness :
  fst (PatchCommand.create_request sample_ext sample_node
         (PatchCommand.init (VStr "docs/1")
            (VPatchRequest (VStr "this.Age++") (VDict [])) VNone
            (VPatchRequest (VStr EmptyString) (VDict [])) false false))
  = Raise ValueError (VStr "None or Empty script is invalid").
Proof.
  exact (f_equal fst
           (PatchCommand_create_request_empty_fallback_script sample_ext sample_node
              (PatchCommand.init (VStr "docs/1")
                 (VPatchRequest (VStr "this.Age++") (VDict [])) VNone
                 (VPatchRequest (VStr EmptyString) (VDict [])) false false)
              (VStr EmptyString) (VDict []) eq_refl eq_refl eq_refl eq_refl)).
Defined.

(** ** QueryCommand *)

(** [set_response]: a None response raises ErrorResponseException naming
    the index; a JSON object with "Error" raises ErrorResponseException with
    that error; a JSON object without it is returned as it is. *)
Theorem QueryCommand_set_response_outcomes ext (self : QueryCommand.t) :
  (forall name, QueryCommand.index_name (own self) = VStr name ->
                QueryCommand.set_response ext self None
                = Raise ErrorResponseException (VStr ("Could not find index " ++ name)))
  /\ (forall r d e, Response.body r = Some (VDict d) -> assoc "Error" d = Some e ->
                    QueryCommand.set_response ext self (Some r)
                    = Raise ErrorResponseException e)
  /\ (forall r d, Response.body r = Some (VDict d) -> assoc "Error" d = None ->
                  QueryCommand.set_response ext self (Some r) = Ok (VDict d)).
Proof.
  unfold QueryCommand.set_response, Response.json. repeat split.
  - intros name ->. cbn. now rewrite append_nil_r.
  - intros r d e Hb He. rewrite Hb. cbn. unfold has_key. now rewrite He.
  - intros r d Hb He. rewrite Hb. cbn. unfold has_key. now rewrite He.
Qed.

(** The constructor refuses None for the index name, the query and the
    conventions; it lets an empty index name through, which
    [create_request] then refuses with a ValueError, the command being as
    the constructor left it. *)
Theorem QueryCommand_init_and_empty_name
        ext server_node index_name index_query conventions includes
        metadata_only index_entries_only force_read_from_master :
  (index_name = VNone \/ index_query = VNone \/ conventions = None ->
   raises (QueryCommand.init index_name index_query conventions includes
                             metadata_only index_entries_only force_read_from_master)
          ValueError)
  /\ (index_name = VStr EmptyString -> index_query <> VNone -> conventions <> None ->
      exists self,
        QueryCommand.init index_name index_query conventions includes
                          metadata_only index_entries_only force_read_from_master = Ok self
        /\ QueryCommand.create_request ext server_node self
           = (Raise ValueError (VStr "index_name cannot be None or empty"), self)).
Proof.
  split.
  - intros [-> | [-> | ->]]; unfold QueryCommand.init.
    + eexists; reflexivity.
    + destruct (is_None index_name); eexists; reflexivity.
    + destruct (is_None index_name); [eexists; reflexivity|].
      destruct (is_None index_query); eexists; reflexivity.
  - intros -> Hq Hc. unfold QueryCommand.init. cbn [is_None].
    rewrite (is_None_false _ Hq). destruct conventions as [conv|]; [|contradiction].
    eexists. split; reflexivity.
Qed.

Lemma QueryCommand_init_and_empty_name_witness :
  raises (QueryCommand.init VNone (VIndexQuery {| query := "Name:John"; page_size := 128;
                                                  default_operator := None; sort_hints := [];
                                                  sort_fields := []; fetch := [];
                                                  wait_for_non_stale_results_timeout := None |})
                            (Some {| QueryCommand.max_length_of_query_using_get_url := 1536 |})
                            VNone false false false)
         ValueError.
Proof.
  apply (QueryCommand_init_and_empty_name sample_ext sample_node VNone _ _ VNone
           false false false).
  left. reflexivity.
Defined.

(** ** GetTopologyCommand *)

(** [set_response] on a response: status 200 gives the parsed body; status
    400 raises AttributeError at [log.debug], [log] being None, instead of
    logging the error and returning None; any other status gives None. *)
Theorem GetTopology_set_response_status self (r : Response.t) :
  (Response.status_code r = 200 ->
   GetTopologyCommand.set_response self (Some r) = Response.json r)
  /\ (Response.status_code r = 400 ->
      raises (GetTopologyCommand.set_response self (Some r)) AttributeError)
  /\ (Response.status_code r <> 200 -> Response.status_code r <> 400 ->
      GetTopologyCommand.set_response self (Some r) = Ok VNone).
Proof.
  unfold GetTopologyCommand.set_response, response_status_code, response_json.
  repeat split.
  - intros ->. reflexivity.
  - intros ->. cbn. eexists; reflexivity.
  - intros H200 H400. cbn [bindR].
    destruct (Z.eqb_spec (Response.status_code r) 200); [contradiction|].
    cbn [bindR]. destruct (Z.eqb_spec (Response.status_code r) 400); [contradiction|].
    reflexivity.
Qed.

Lemma GetTopology_set_response_status_witness :
  raises (GetTopologyCommand.set_response GetTopologyCommand.init
            (Some {| Response.status_code := 400;
                     Response.body := Some (VDict [("Error", VStr "no topology")]) |}))
         AttributeError.
Proof.
  apply (GetTopology_set_response_status GetTopologyCommand.init
           {| Response.status_code := 400;
              Response.body := Some (VDict [("Error", VStr "no topology")]) |}).
  reflexivity.
Defined.

Lemma QueryCommand_set_response_outcomes_witness :
  QueryCommand.set_response sample_ext
    (RavenCommand_init (VStr "GET") true
       {| QueryCommand.conventions := None; QueryCommand.index_name := VStr "Users/ByName";
          QueryCommand.index_query := VNone; QueryCommand.includes := VNone;
          QueryCommand.metadata_only := false; QueryCommand.index_entries_only := false;
          QueryCommand.force_read_from_master := false |})
    None
  = Raise ErrorResponseException (VStr "Could not find index Users/ByName").
Proof.
  destruct (QueryCommand_set_response_outcomes sample_ext
              (RavenCommand_init (VStr "GET") true
                 {| QueryCommand.conventions := None;
                    QueryCommand.index_name := VStr "Users/ByName";
                    QueryCommand.index_query := VNone; QueryCommand.includes := VNone;
                    QueryCommand.metadata_only := false;
                    QueryCommand.index_entries_only := false;
                    QueryCommand.force_read_from_master := false |}))
    as [H _].
  apply (H "Users/ByName"). reflexivity.
Defined.

(** ** CreateDatabaseCommand and DeleteDatabaseCommand *)

Lemma prefixb_refl_app (p s : string) : prefixb p (p ++ s) = true.
Proof.
  induction p as [|c p IH]; cbn; [now destruct s|].
  now rewrite Ascii.eqb_refl, IH.
Qed.

(** [replace] passes over what is left of an occurrence. *)
Lemma replace_from_skip (old new t s : string) :
  replace_from old new (t ++ s) (String.length t) = replace_from old new s 0.
Proof. induction t as [|c t IH]; cbn; [reflexivity | exact IH]. Qed.

(** [replace] gives the string back when [old] does not occur in it. *)
Lemma str_replace_absent (s old new : string) :
  substringb old s = false -> str_replace s old new = s.
Proof.
  unfold str_replace. induction s as [|c s IH]; intros H; [reflexivity|].
  cbn [substringb] in H. apply orb_false_iff in H. destruct H as [Hp Hs].
  cbn [replace_from]. rewrite Hp. now rewrite (IH Hs).
Qed.

(** [replace] takes a leading occurrence away. *)
Lemma str_replace_prefix (c : ascii) (old' rest : string) :
  str_replace (String c old' ++ rest) (String c old') EmptyString
  = str_replace rest (String c old') EmptyString.
Proof.
  unfold str_replace.
  change (String c old' ++ rest) with (String c (old' ++ rest)).
  cbn [replace_from].
  change (String c (old' ++ rest)) with (String c old' ++ rest).
  rewrite prefixb_refl_app. cbn [String.length Nat.sub append].
  rewrite Nat.sub_0_r. apply replace_from_skip.
Qed.

(** A database document without the "Raven/DataDir" setting makes
    [create_request] raise InvalidOperationException with the command
    exactly as it was. *)
Theorem CreateDatabase_create_request_no_data_dir
        ext utils server_node database_id settings to_json :
  has_key "Raven/DataDir" settings = false ->
  let self := CreateDatabaseCommand.init (DatabaseDocument database_id settings to_json) in
  CreateDatabaseCommand.create_request ext utils server_node self
  = (Raise InvalidOperationException (VStr "The Raven/DataDir setting is mandatory"), self).
Proof.
  intros Hkey self. subst self.
  unfold CreateDatabaseCommand.create_request, CreateDatabaseCommand.init, DatabaseDocument,
    bind, get, when, lift, raise.
  cbn. rewrite Hkey. reflexivity.
Qed.

Lemma CreateDatabase_create_request_no_data_dir_witness :
  fst (CreateDatabaseCommand.create_request sample_ext sample_utils sample_node
         (CreateDatabaseCommand.init
            (DatabaseDocument "Raven/Databases/Orders" [("Raven/ActiveBundles", VStr "Replication")]
                              (VDict []))))
  = Raise InvalidOperationException (VStr "The Raven/DataDir setting is mandatory").
Proof.
  exact (f_equal fst
           (CreateDatabase_create_request_no_data_dir sample_ext sample_utils sample_node
              "Raven/Databases/Orders" [("Raven/ActiveBundles", VStr "Replication")] (VDict [])
              eq_refl)).
Defined.

(** With the setting present, the database id loses its [Raven/Databases/]
    prefix, the bare name is validated and quoted into the admin url (which
    has no [/databases/<name>/] part), and the body is the JSON of the
    document; a name that [Utils.name_validation] refuses stops the request
    with the command exactly as it was. *)
Theorem CreateDatabase_create_request_request
        ext utils enc server_node name settings to_json :
  quotes_with ext enc ->
  has_key "Raven/DataDir" settings = true ->
  substringb "Raven/Databases/" name = false ->
  let self := CreateDatabaseCommand.init
                (DatabaseDocument ("Raven/Databases/" ++ name) settings to_json) in
  let after := CreateDatabaseCommand.create_request ext utils server_node self in
  (name_validation utils name = Ok tt ->
   fst after = Ok tt
   /\ url (snd after) =
        VStr (ServerNode.url server_node ++ "/admin/databases?name=" ++ enc name false)
   /\ data (snd after) = to_json)
  /\ (forall c arg, name_validation utils name = Raise c arg ->
                    after = (Raise c arg, self)).
Proof.
  intros Henc Hkey Habsent self after. subst after self.
  assert (Hname : str_replace ("Raven/Databases/" ++ name) "Raven/Databases/" EmptyString
                  = name).
  { rewrite (str_replace_prefix "R" "aven/Databases/" name).
    now apply str_replace_absent. }
  unfold CreateDatabaseCommand.create_request, CreateDatabaseCommand.init, DatabaseDocument,
    bind, get, when, lift, raise.
  cbn [own RavenCommand_init CreateDatabaseCommand.database_document getattr attribute_of
       assoc String.eqb Ascii.eqb Bool.eqb contains_str py_replace negb].
  rewrite Hkey. cbn [negb]. rewrite Hname. split.
  - intros Hv. rewrite Hv, Henc. cbn. rewrite append_nil_r. repeat split; reflexivity.
  - intros c arg Hv. rewrite Hv. reflexivity.
Qed.

Lemma CreateDatabase_create_request_request_witness :
  url (snd (CreateDatabaseCommand.create_request sample_ext sample_utils sample_node
              (CreateDatabaseCommand.init
                 (DatabaseDocument "Raven/Databases/Orders 2"
                                   [("Raven/DataDir", VStr "~/Orders")] (VDict [])))))
  = VStr "http://localhost:8080/admin/databases?name=Orders%202".
Proof.
  destruct (CreateDatabase_create_request_request sample_ext sample_utils sample_enc
              sample_node "Orders 2" [("Raven/DataDir", VStr "~/Orders")] (VDict []))
    as [Hok _]; [intros s flag; reflexivity | reflexivity | reflexivity |].
  destruct (Hok eq_refl) as [_ [Hurl _]]. exact Hurl.
Defined.

(** [CreateDatabaseCommand.set_response]: None raises a ValueError; status
    201 gives the parsed body; status 400 raises ErrorResponseException with
    the "Message" of the body; every other status falls through and gives
    None, without any error. *)
Theorem CreateDatabase_set_response_outcomes self :
  raises (CreateDatabaseCommand.set_response self None) ValueError
  /\ (forall r, Response.status_code r = 201 ->
                CreateDatabaseCommand.set_response self (Some r) = Response.json r)
  /\ (forall r d message,
         Response.status_code r = 400 -> Response.body r = Some (VDict d) ->
         assoc "Message" d = Some message ->
         CreateDatabaseCommand.set_response self (Some r)
         = Raise ErrorResponseException message)
  /\ (forall r, Response.status_code r <> 201 -> Response.status_code r <> 400 ->
                CreateDatabaseCommand.set_response self (Some r) = Ok VNone).
Proof.
  unfold CreateDatabaseCommand.set_response. repeat split.
  - eexists; reflexivity.
  - intros r ->. reflexivity.
  - intros r d message -> Hb Hm. cbn. unfold Response.json. rewrite Hb. cbn.
    now rewrite Hm.
  - intros r H201 H400.
    destruct (Z.eqb_spec (Response.status_code r) 201); [contradiction|].
    destruct (Z.eqb_spec (Response.status_code r) 400); [contradiction|].
    reflexivity.
Qed.

Lemma CreateDatabase_set_response_outcomes_witness :
  CreateDatabaseCommand.set_response
    (CreateDatabaseCommand.init VNone)
    (Some {| Response.status_code := 500; Response.body := None |}) = Ok VNone.
Proof.
  apply (CreateDatabase_set_response_outcomes (CreateDatabaseCommand.init VNone));
    discriminate.
Defined.

(** DeleteDatabaseCommand replaces [Rave/Databases/], not the
    [Raven/Databases/] that CreateDatabaseCommand takes away: a name in which
    [Rave/Databases/] does not occur enters the admin url whole, followed by
    [&hard-delete=true] when asked for; so does a name that starts with
    [Raven/Databases/], whose prefix stays in the url. *)
Theorem DeleteDatabase_create_request_url ext enc server_node name (hard_delete : bool) :
  quotes_with ext enc ->
  substringb "Rave/Databases/" name = false ->
  let url_of (n : string) :=
    VStr (ServerNode.url server_node ++ "/admin/databases?name=" ++ enc n false
          ++ (if hard_delete then "&hard-delete=true" else EmptyString)) in
  (let after := DeleteDatabaseCommand.create_request ext server_node
                  (DeleteDatabaseCommand.init (VStr name) hard_delete) in
   fst after = Ok tt /\ url (snd after) = url_of name)
  /\ (let after := DeleteDatabaseCommand.create_request ext server_node
                     (DeleteDatabaseCommand.init (VStr ("Raven/Databases/" ++ name))
                                                 hard_delete) in
      fst after = Ok tt /\ url (snd after) = url_of ("Raven/Databases/" ++ name)).
Proof.
  intros Henc Habsent url_of. subst url_of.
  assert (Hrun : forall n, substringb "Rave/Databases/" n = false ->
            let after := DeleteDatabaseCommand.create_request ext server_node
                           (DeleteDatabaseCommand.init (VStr n) hard_delete) in
            fst after = Ok tt
            /\ url (snd after) =
                 VStr (ServerNode.url server_node ++ "/admin/databases?name=" ++ enc n false
                       ++ (if hard_delete then "&hard-delete=true" else EmptyString))).
  { intros n Hn after. subst after.
    unfold DeleteDatabaseCommand.create_request, DeleteDatabaseCommand.init,
      bind, get, when, lift.
    cbn [own RavenCommand_init DeleteDatabaseCommand.name DeleteDatabaseCommand.hard_delete
         py_replace].
    rewrite (str_replace_absent _ _ _ Hn), Henc.
    destruct hard_delete; cbn; rewrite ?append_nil_r, ?append_assoc; cbn;
      rewrite ?append_assoc; split; reflexivity. }
  split; [apply Hrun; assumption|].
  apply Hrun. cbn. exact Habsent.
Qed.

Lemma DeleteDatabase_create_request_url_witness :
  url (snd (DeleteDatabaseCommand.create_request sample_ext sample_node
              (DeleteDatabaseCommand.init (VStr "Raven/Databases/Orders") true)))
  = VStr "http://localhost:8080/admin/databases?name=Raven%2FDatabases%2FOrders&hard-delete=true".
Proof.
  destruct (DeleteDatabase_create_request_url sample_ext sample_enc sample_node
              "Orders" true) as [_ [_ Hurl]];
    [intros s flag; reflexivity | reflexivity |].
  exact Hurl.
Defined.

(** ** PatchByIndexCommand *)



(** ** Key lists without duplicates, and requests that fail cleanly *)

Lemma distinct_keys_NoDup_id (keys : list string) : NoDup keys -> distinct_keys keys = keys.
Proof.
  induction keys as [|x keys IH] using rev_ind; intros Hnd; [reflexivity|].
  rewrite distinct_keys_snoc.
  assert (Hx : ~ In x keys).
  { apply NoDup_remove_2 in Hnd. now rewrite app_nil_r in Hnd. }
  rewrite (IH (NoDup_app_remove_r _ _ Hnd)).
  destruct (existsb (String.eqb x) keys) eqn:E; [|reflexivity].
  apply existsb_eqb_In in E. contradiction.
Qed.

(** A list of distinct str keys of at most 1024 characters in all goes into
    the url whole and in the order given, one quoted [id] parameter per key,
    with the GET of the constructor and no body. *)
Theorem GetDocument_create_request_distinct_keys
        ext enc server_node keys includes metadata_only force_read_from_master :
  quotes_with ext enc ->
  NoDup keys ->
  total_length keys <= 1024 ->
  let after := GetDocumentCommand.create_request ext server_node
                 (GetDocumentCommand.init (VList (map VStr keys)) (optional_list includes)
                                          metadata_only force_read_from_master) in
  fst after = Ok tt
  /\ url (snd after) =
       VStr (database_url server_node
               ((docs_path enc includes ++
                 if metadata_only then "&metadata-only=True" else EmptyString)
                ++ quoted_items enc "&id=" keys))
  /\ method (snd after) = VStr "GET"
  /\ data (snd after) = VNone.
Proof.
  intros Henc Hnd Hlen after. subst after.
  assert (Hkept : distinct_keys keys = keys) by now apply distinct_keys_NoDup_id.
  rewrite (GetDocument_key_list_get ext enc server_node keys includes metadata_only
             force_read_from_master Henc) by now rewrite Hkept.
  rewrite Hkept. cbn [fst snd url method data]. repeat split; reflexivity.
Qed.

Lemma GetDocument_create_request_distinct_keys_witness :
  url (snd (GetDocumentCommand.create_request sample_ext sample_node
              (GetDocumentCommand.init (VList [VStr "b/2"; VStr "a/1"]) VNone true false)))
  = VStr "http://localhost:8080/databases/NorthWind/docs?&metadata-only=True&id=b%2F2&id=a%2F1".
Proof.
  destruct (GetDocument_create_request_distinct_keys sample_ext sample_enc sample_node
              ["b/2"; "a/1"] None true false) as [_ [Hurl _]].
  - intros s flag. reflexivity.
  - repeat constructor; cbn; intuition discriminate.
  - vm_compute. discriminate.
  - exact Hurl.
Defined.

(** In every command but PatchCommand and CreateDatabaseCommand, which
    serialize after they have assigned the url, a [create_request] that
    raises leaves [self.url] and [self.data] as they were, whatever the
    command holds and whatever the helpers do. *)
Theorem create_request_raises_clean ext utils server_node :
  raises_clean (GetDocumentCommand.create_request ext server_node)
  /\ raises_clean (DeleteDocumentCommand.create_request ext server_node)
  /\ raises_clean (PutDocumentCommand.create_request ext server_node)
  /\ raises_clean (BatchCommand.create_request ext server_node)
  /\ raises_clean (PutIndexesCommand.create_request ext server_node)
  /\ raises_clean (GetIndexCommand.create_request ext server_node)
  /\ raises_clean (DeleteIndexCommand.create_request ext server_node)
  /\ raises_clean (PatchByIndexCommand.create_request ext utils server_node)
  /\ raises_clean (QueryCommand.create_request ext server_node).
Proof.
  repeat match goal with |- _ /\ _ => split end.
  - apply GetDocument_create_request_raise.
  - apply DeleteDocument_create_request_raise.
  - apply PutDocument_create_request_raise.
  - apply BatchCommand_create_request_raise.
  - apply PutIndexes_create_request_raise.
  - unfold GetIndexCommand.create_request. frame.
  - unfold DeleteIndexCommand.create_request. frame.
  - unfold PatchByIndexCommand.create_request. frame.
  - apply QueryCommand_create_request_raise.
Qed.
